(** * WAM fuel price scraper: a shallow embedding of
      [server/services/wam_fuel_scraper.py] and the properties of its
      announcement selector, price extractor, publisher and orchestrator.

    Scope of the embedding.
    - A Python [str] is a list of code points.  The code points are the
      256 of Latin-1 (Rocq's [ascii]); on that range [str.lower],
      [str.isspace], [str.isdigit] and the regex class [\d] are written out
      below as CPython defines them.
    - A Python [float] obtained from [float(s)] is represented by the exact
      rational the literal denotes.  The literals reaching [float] are at
      most 100 characters of digits with one separator, so the conversion to
      binary64 neither overflows nor underflows: a value is zero (falsy) or
      positive as a double exactly when the rational is.
    - The HTTP client, the HTML parser, the clock and the environment are
      inputs, gathered in the record [world]. *)

From Stdlib Require Import ZArith QArith List Ascii String Bool Lia.
From stdpp Require Import base gmap strings list fin_maps sorting.

Local Open Scope Z_scope.

(** ** Python strings over Latin-1 *)

Definition pystr := list ascii.

(** A literal of the source. *)
Definition py (s : string) : pystr := list_ascii_of_string s.

Definition ord (c : ascii) : Z := Z.of_N (N_of_ascii c).

Definition between (lo hi : Z) (c : ascii) : bool :=
  (lo <=? ord c) && (ord c <=? hi).

(** [c.isupper()] for a Latin-1 code point: A-Z, and U+00C0..U+00DE but the
    multiplication sign U+00D7. *)
Definition is_upper (c : ascii) : bool :=
  between 65 90 c || (between 192 222 c && negb (ord c =? 215)).

Definition lower_char (c : ascii) : ascii :=
  if is_upper c then ascii_of_N (N_of_ascii c + 32) else c.

(** [s.lower()] *)
Definition lower (s : pystr) : pystr := map lower_char s.

(** [c.isspace()]: the characters [str.strip()] and [str.split()] remove. *)
Definition is_space (c : ascii) : bool :=
  between 9 13 c || between 28 32 c || (ord c =? 133) || (ord c =? 160).

(** The regex class [\d] (Unicode category Nd): 0-9 on Latin-1. *)
Definition is_decimal (c : ascii) : bool := between 48 57 c.

(** [c.isdigit()]: the decimal digits and the superscripts one, two, three
    (U+00B9, U+00B2, U+00B3), which [float] does not accept. *)
Definition isdigit_char (c : ascii) : bool :=
  is_decimal c || (ord c =? 178) || (ord c =? 179) || (ord c =? 185).

(** [s.isdigit()]: every character is a digit and there is at least one. *)
Definition isdigit (s : pystr) : bool :=
  match s with
  | [] => false
  | _ => forallb isdigit_char s
  end.

(** [s.startswith(p)] *)
Fixpoint startswith (p s : pystr) : bool :=
  match p, s with
  | [], _ => true
  | _ :: _, [] => false
  | a :: p', b :: s' => Ascii.eqb a b && startswith p' s'
  end.

(** [s.find(sub)]: the lowest index where [sub] occurs, [-1] when it does
    not. *)
Fixpoint str_find (sub s : pystr) : Z :=
  if startswith sub s then 0
  else match s with
       | [] => -1
       | _ :: s' => let r := str_find sub s' in
                    if r =? -1 then -1 else r + 1
       end.

(** [sub in s] *)
Definition str_in (sub s : pystr) : bool := negb (str_find sub s =? -1).

(** A slice index brought into [0 .. len], as [PySlice_AdjustIndices]. *)
Definition adjust_index (len i : Z) : Z :=
  if i <? 0 then Z.max 0 (i + len) else Z.min i len.

(** [s[i:j]] *)
Definition slice (s : pystr) (i j : Z) : pystr :=
  let len := Z.of_nat (length s) in
  let a := adjust_index len i in
  let b := adjust_index len j in
  take (Z.to_nat (b - a)) (drop (Z.to_nat a) s).

Fixpoint lstrip (s : pystr) : pystr :=
  match s with
  | [] => []
  | c :: s' => if is_space c then lstrip s' else s
  end.

Fixpoint rstrip (s : pystr) : pystr :=
  match s with
  | [] => []
  | c :: s' =>
      match rstrip s' with
      | [] => if is_space c then [] else [c]
      | r => c :: r
      end
  end.

(** [s.strip()] *)
Definition strip (s : pystr) : pystr := rstrip (lstrip s).

(** The word in progress, if any. *)
Definition emit (w : pystr) : list pystr :=
  match w with
  | [] => []
  | _ => [w]
  end.

Fixpoint split_go (w s : pystr) : list pystr :=
  match s with
  | [] => emit w
  | c :: s' =>
      if is_space c then emit w ++ split_go [] s'
      else split_go (w ++ [c]) s'
  end.

(** [s.split()]: the maximal runs of non-whitespace, in order. *)
Definition split (s : pystr) : list pystr := split_go [] s.

(** [s.replace(old, new)] for a one-character [old]. *)
Definition replace (old : ascii) (new : pystr) (s : pystr) : pystr :=
  flat_map (fun c => if Ascii.eqb c old then new else [c]) s.

(** Lexicographic comparison of strings by code point, as [<] on [str]. *)
Fixpoint str_ltb (a b : pystr) : bool :=
  match a, b with
  | _, [] => false
  | [], _ :: _ => true
  | x :: a', y :: b' =>
      (ord x <? ord y) || ((ord x =? ord y) && str_ltb a' b')
  end.

Definition str_leb (a b : pystr) : bool := negb (str_ltb b a).

(** ** Exceptions *)

Inductive exn := ValueError | AttributeError | RequestException.

Inductive res (A : Type) :=
| Ok (a : A)
| Raise (e : exn).
Arguments Ok {A} a.
Arguments Raise {A} e.

#[global] Instance res_ret : MRet res := fun A a => Ok a.

#[global] Instance res_bind : MBind res := fun A B k m =>
  match m with
  | Ok a => k a
  | Raise e => Raise e
  end.

(** ** [float] on a literal of digits and dots *)

Fixpoint span_digits (s : pystr) : pystr * pystr :=
  match s with
  | c :: s' =>
      if is_decimal c
      then let (d, r) := span_digits s' in (c :: d, r)
      else ([], s)
  | [] => ([], [])
  end.

Definition digit_value (c : ascii) : Z := ord c - 48.

Definition digits_value (ds : pystr) : Z :=
  fold_left (fun acc c => 10 * acc + digit_value c) ds 0.

(** The number with integer digits [ip] and fraction digits [fp]. *)
Definition decimal (ip fp : pystr) : Q :=
  Qmake (digits_value (ip ++ fp)) (Z.to_pos (10 ^ Z.of_nat (length fp))).

Definition is_nil {A} (l : list A) : bool :=
  match l with
  | [] => true
  | _ => false
  end.

(** [float(w)] for the strings the extractor passes: digits, dots and the
    superscript digits.  The literal is accepted when it is a run of decimal
    digits, optionally a dot and a second run, with a digit somewhere;
    anything else raises [ValueError]. *)
Definition py_float (w : pystr) : res Q :=
  let (ip, r) := span_digits w in
  match r with
  | [] => if is_nil ip then Raise ValueError else Ok (decimal ip [])
  | c :: fp =>
      if Ascii.eqb c "."
         && forallb is_decimal fp
         && negb (is_nil ip && is_nil fp)
      then Ok (decimal ip fp)
      else Raise ValueError
  end.

(** Truth value of [price], which is [None] or a float. *)
Definition truthy (price : option Q) : bool :=
  match price with
  | None => false
  | Some q => negb (Qnum q =? 0)
  end.

(** ** [re.findall(r'(\d+[,.]\d+)', s)] *)

Definition is_sep (c : ascii) : bool := Ascii.eqb c "," || Ascii.eqb c ".".

(** The match of the pattern anchored at the start of [s].  Both [\d+] are
    greedy; giving back digits cannot help, as the character after a shorter
    run is a digit and not a separator. *)
Definition match_at (s : pystr) : option pystr :=
  let (d1, r1) := span_digits s in
  match d1, r1 with
  | _ :: _, c :: r2 =>
      if is_sep c
      then let (d2, _) := span_digits r2 in
           if is_nil d2 then None else Some (d1 ++ c :: d2)
      else None
  | _, _ => None
  end.

(** All non-overlapping matches, left to right; [skip] counts the characters
    of the last match still to step over. *)
Fixpoint findall_go (skip : nat) (s : pystr) : list pystr :=
  match s with
  | [] => []
  | _ :: s' =>
      match skip with
      | S k => findall_go k s'
      | O =>
          match match_at s with
          | Some m => m :: findall_go (Nat.pred (length m)) s'
          | None => findall_go 0 s'
          end
      end
  end.

Definition re_findall (s : pystr) : list pystr := findall_go 0 s.

(** ** The price extractor *)

(** [FUEL_TYPE_MAPPING], in the order the dict is written and iterated. *)
Definition FUEL_TYPE_MAPPING : list (pystr * string) :=
  [ (py "special 95", "PETROL"%string);
    (py "super 98", "SUPER"%string);
    (py "e-plus 91", "EPLUS"%string);
    (py "diesel", "DIESEL"%string) ].

(** The loop over the words after the currency marker: the first word that
    is digits once its dots are removed goes to [float], and the loop
    breaks. *)
Fixpoint first_number (words : list pystr) : res (option Q) :=
  match words with
  | [] => Ok None
  | word :: rest =>
      if isdigit (replace "." [] word)
      then price ← py_float word; Ok (Some price)
      else first_number rest
  end.

(** The primary pattern: the 7 characters after the first "aed". *)
Definition aed_price (segment : pystr) : res (option Q) :=
  if str_in (py "aed") segment then
    let aed_pos := str_find (py "aed") segment in
    let number_segment := strip (slice segment (aed_pos + 3) (aed_pos + 10)) in
    first_number (split number_segment)
  else Ok None.

(** The second pattern, tried when [price is None]. *)
Definition regex_price (segment : pystr) (price : option Q) : res (option Q) :=
  match price with
  | None =>
      match re_findall segment with
      | m :: _ => p ← py_float (replace "," (py ".") m); Ok (Some p)
      | [] => Ok None
      end
  | Some _ => Ok price
  end.

(** The value of [price] when the body of the [try] reaches [if price:];
    [Ok None] also stands for the [continue] taken when the label is not in
    the text. *)
Definition find_price (text_lower key : pystr) : res (option Q) :=
  let pos := str_find key text_lower in
  if pos =? -1 then Ok None
  else
    let segment := slice text_lower pos (pos + 100) in
    price ← aed_price segment;
    regex_price segment price.

(** The body of the [try]: [prices[fuel_type] = price] when [price] is
    truthy. *)
Definition try_body (text_lower : pystr) (prices : gmap string Q)
    (key : pystr) (fuel_type : string) : res (gmap string Q) :=
  price ← find_price text_lower key;
  match price with
  | Some p => if truthy price then Ok (<[fuel_type := p]> prices) else Ok prices
  | None => Ok prices
  end.

(** One iteration: [except Exception] logs and goes on with [prices] as it
    was. *)
Definition iteration (text_lower : pystr) (prices : gmap string Q)
    (item : pystr * string) : gmap string Q :=
  match try_body text_lower prices item.1 item.2 with
  | Ok prices' => prices'
  | Raise _ => prices
  end.

(** [prices] after the loop. *)
Definition extract_prices (article_text : pystr) : gmap string Q :=
  foldl (iteration (lower article_text)) ∅ FUEL_TYPE_MAPPING.

Record report := {
  prices : gmap string Q;
  date : pystr;
  source : pystr
}.

(** [extract_fuel_prices(article_text)]; [now] is what
    [datetime.now(timezone.utc).isoformat()] returns. *)
Definition extract_fuel_prices (now : pystr) (article_text : pystr)
    : option report :=
  let prices := extract_prices article_text in
  if bool_decide (prices ≠ ∅)
  then Some {| prices := prices;
               date := now;
               source := py "WAM (Emirates News Agency)" |}
  else None.

(** What one label contributes to [prices]: the truthy price its iteration
    finds, nothing when the price is missing or falsy or the iteration
    raised. *)
Definition recorded (text_lower key : pystr) : option Q :=
  match find_price text_lower key with
  | Ok (Some p) => if truthy (Some p) then Some p else None
  | Ok None => None
  | Raise _ => None
  end.

(** The 100-character window of a label found at [pos]. *)
Definition window (text_lower key : pystr) : pystr :=
  let pos := str_find key text_lower in
  slice text_lower pos (pos + 100).

(** ** The announcement selector *)

(** A result card of the listing: the text of its [.card-title] and of its
    [.item-date], and the [href] of its first [a], each [None] when the
    element (or, for the inner option, the attribute) is not there. *)
Record card := {
  title_elem : option pystr;
  date_elem : option pystr;
  link_elem : option (option pystr)
}.

(** An entry of [fuel_price_articles]; [date_text] is stored under the key
    ['date']. *)
Record candidate := {
  title : pystr;
  date_text : pystr;
  link : option pystr
}.

(** The keyword test on the lower-cased title. *)
Definition is_announcement (title : pystr) : bool :=
  (str_in (py "fuel price") title || str_in (py "petrol price") title)
  && (str_in (py "announce") title || str_in (py "set") title).

(** One iteration of the loop over the cards. *)
Definition candidate_of (article : card) : option candidate :=
  match title_elem article, date_elem article, link_elem article with
  | Some title_text, Some date_elem_text, Some href =>
      let title := lower (strip title_text) in
      let date_text := strip date_elem_text in
      if is_announcement title
      then Some {| title := title; date_text := date_text; link := href |}
      else None
  | _, _, _ => None
  end.

Definition fuel_price_articles (articles : list card) : list candidate :=
  omap candidate_of articles.

(** [x] put into a list sorted by date, greatest first, before every entry
    that is not greater than it. *)
Fixpoint insert_desc (x : candidate) (l : list candidate) : list candidate :=
  match l with
  | [] => [x]
  | y :: l' =>
      if str_ltb (date_text x) (date_text y)
      then y :: insert_desc x l'
      else x :: l
  end.

(** [l.sort(key=lambda x: x['date'], reverse=True)]: the sort is stable, and
    stays so under [reverse=True], so entries of equal date keep their
    order. *)
Definition sort_by_date_desc (l : list candidate) : list candidate :=
  foldr insert_desc [] l.

(** [latest_article], when [fuel_price_articles] is not empty. *)
Definition latest_article (articles : list card) : option candidate :=
  head (sort_by_date_desc (fuel_price_articles articles)).

(** The URL of the article; [startswith] on a missing [href] raises. *)
Definition article_url_of (latest : candidate) : res pystr :=
  match link latest with
  | None => Raise AttributeError
  | Some article_url =>
      if negb (startswith (py "http") article_url)
      then Ok (py "https://wam.ae" ++ article_url)
      else Ok article_url
  end.

(** ** The outside world *)

(** What [requests.get] or [requests.post] does: it raises a
    [RequestException] (connection error, timeout), or returns a response. *)
Inductive http_outcome :=
| Failed
| Response (status_code : Z) (text : pystr).

(** [response.raise_for_status()] raises an [HTTPError], which is a
    [RequestException], for the status codes 400 to 599. *)
Definition raise_for_status (o : http_outcome) : res pystr :=
  match o with
  | Failed => Raise RequestException
  | Response status_code text =>
      if (400 <=? status_code) && (status_code <? 600)
      then Raise RequestException
      else Ok text
  end.

Record world := {
  (** [requests.get(url, timeout=30)] *)
  http_get : pystr -> http_outcome;
  (** [requests.post(url, json=..., headers=..., timeout=30)] *)
  http_post : pystr -> report -> http_outcome;
  (** [BeautifulSoup(html).select('.search-results .card')] *)
  select_cards : pystr -> list card;
  (** The stripped text of the [p] elements of [.article-body], [None]
      when the page has no such element. *)
  select_article_body : pystr -> option (list pystr);
  (** [datetime.now(timezone.utc).isoformat()] *)
  utcnow : pystr;
  (** [os.getenv('APP_URL')] *)
  APP_URL : option pystr
}.

Inductive event :=
| Get (url : pystr)
| Post (url : pystr) (json : report).

Definition WAM_FUEL_PRICES_URL : pystr :=
  py "https://wam.ae/en/search?query=fuel+prices".

Definition TRIPXL_API_URL (w : world) : pystr :=
  default (py "http://localhost:5000") (APP_URL w)
  ++ py "/api/fuel-types/update".

(** [' '.join(texts)] *)
Fixpoint join_space (texts : list pystr) : pystr :=
  match texts with
  | [] => []
  | [t] => t
  | t :: rest => t ++ " "%char :: join_space rest
  end.

(** The body of the [try] of [scrape_wam_for_fuel_prices], with the requests
    it made. *)
Definition scrape_body (w : world) : res (option report) * list event :=
  let log1 := [Get WAM_FUEL_PRICES_URL] in
  match raise_for_status (http_get w WAM_FUEL_PRICES_URL) with
  | Raise e => (Raise e, log1)
  | Ok html =>
      let articles := select_cards w html in
      if is_nil articles then (Ok None, log1)
      else
        match latest_article articles with
        | None => (Ok None, log1)
        | Some latest =>
            match article_url_of latest with
            | Raise e => (Raise e, log1)
            | Ok article_url =>
                let log2 := log1 ++ [Get article_url] in
                match raise_for_status (http_get w article_url) with
                | Raise e => (Raise e, log2)
                | Ok article_html =>
                    match select_article_body w article_html with
                    | None => (Ok None, log2)
                    | Some paragraphs =>
                        let article_text := join_space paragraphs in
                        (Ok (extract_fuel_prices (utcnow w) article_text), log2)
                    end
                end
            end
        end
  end.

(** [scrape_wam_for_fuel_prices()]: both handlers return [None]. *)
Definition scrape_wam_for_fuel_prices (w : world)
    : option report * list event :=
  match scrape_body w with
  | (Ok price_data, log) => (price_data, log)
  | (Raise _, log) => (None, log)
  end.

(** [send_prices_to_tripxl(price_data)] *)
Definition send_prices_to_tripxl (w : world) (price_data : option report)
    : bool * list event :=
  match price_data with
  | None => (false, [])
  | Some data =>
      let log := [Post (TRIPXL_API_URL w) data] in
      match raise_for_status (http_post w (TRIPXL_API_URL w) data) with
      | Ok _ => (true, log)
      | Raise _ => (false, log)
      end
  end.

(** [run_scraper()] *)
Definition run_scraper (w : world) : bool * list event :=
  let (price_data, log) := scrape_wam_for_fuel_prices w in
  match price_data with
  | Some _ =>
      let (success, log') := send_prices_to_tripxl w price_data in
      (success, log ++ log')
  | None => (false, log)
  end.

(** The argument of [sys.exit]. *)
Definition exit_status (w : world) : Z :=
  if (run_scraper w).1 then 0 else 1.

(** ** Auxiliary notions for the statements *)

(** A character of a literal [float] accepts here. *)
Definition literal_char (c : ascii) : bool := is_decimal c || Ascii.eqb c ".".

(** The values of [FUEL_TYPE_MAPPING]. *)
Definition FUEL_CODES : gset string :=
  {[ "PETROL"%string; "SUPER"%string; "EPLUS"%string; "DIESEL"%string ]}.

Definition is_get (e : event) : bool :=
  match e with
  | Get _ => true
  | Post _ _ => false
  end.

(** [m] matches [\d+[,.]\d+]: digits, one separator, digits. *)
Definition pattern_match (m : pystr) : Prop :=
  ∃ d1 c d2, m = d1 ++ c :: d2 ∧ d1 ≠ [] ∧ d2 ≠ []
    ∧ forallb is_decimal d1 = true ∧ forallb is_decimal d2 = true
    ∧ is_sep c = true.

(** [sub] occurs in [s]. *)
Definition occurs (sub s : pystr) : Prop := ∃ pre post, s = pre ++ sub ++ post.

(** The keyword condition on a lower-cased title, in words: one of "fuel
    price", "petrol price" occurs in it, and one of "announce", "set". *)
Definition title_matches (t : pystr) : Prop :=
  (occurs (py "fuel price") t ∨ occurs (py "petrol price") t)
  ∧ (occurs (py "announce") t ∨ occurs (py "set") t).

(** The card [article] survives the filter as the candidate [a]: it has its
    three elements, its stripped and lower-cased title meets the keyword
    condition, and [a] holds that title, the stripped date text and the
    [href]. *)
Definition survives (article : card) (a : candidate) : Prop :=
  ∃ t d href,
    title_elem article = Some t ∧ date_elem article = Some d
    ∧ link_elem article = Some href
    ∧ title_matches (lower (strip t))
    ∧ a = {| title := lower (strip t); date_text := strip d; link := href |}.

Definition is_alpha (c : ascii) : bool := between 65 90 c || between 97 122 c.

Definition is_scheme_char (c : ascii) : bool :=
  is_alpha c || is_decimal c
  || Ascii.eqb c "+" || Ascii.eqb c "-" || Ascii.eqb c ".".

Fixpoint scheme_then_colon (s : pystr) : bool :=
  match s with
  | [] => false
  | c :: s' =>
      if Ascii.eqb c ":" then true
      else is_scheme_char c && scheme_then_colon s'
  end.

(** Following the words of the specification, "absolute URL": a URL that
    begins with a scheme, a letter and then letters, digits, "+", "-" or ".",
    followed by a colon (RFC 3986, sections 3.1 and 4.3).  The code has no
    such test; this is what its [startswith('http')] is compared with. *)
Definition is_absolute_url (url : pystr) : bool :=
  match url with
  | [] => false
  | c :: s => is_alpha c && scheme_then_colon s
  end.

(** ** A sample run *)

Definition announcement_card : card :=
  {| title_elem := Some (py "Fuel prices announced for next month");
     date_elem := Some (py "2024-06-30");
     link_elem := Some (Some (py "/en/article/fuel-prices-july")) |}.

Definition unrelated_card : card :=
  {| title_elem := Some (py "Unrelated news");
     date_elem := Some (py "2024-07-01");
     link_elem := Some (Some (py "https://wam.ae/en/article/other")) |}.

Definition sample_article : pystr :=
  py "Special 95 will cost AED 2.72 per litre while diesel AED 2.80 ...".

(** A site with the two cards and the article above, and an endpoint that
    answers every POST with [post_status]. *)
Definition sample_world (post_status : Z) : world :=
  {| http_get := λ url,
       if startswith (py "https://wam.ae/en/search") url
       then Response 200 (py "<listing>")
       else Response 200 (py "<article>");
     http_post := λ _ _, Response post_status [];
     select_cards := λ _, [announcement_card; unrelated_card];
     select_article_body := λ _, Some [sample_article];
     utcnow := py "2024-07-01T02:00:00+00:00";
     APP_URL := None |}.

Definition sample_report : report :=
  {| prices := <["DIESEL"%string := 280 # 100]>
                 (<["PETROL"%string := 272 # 100]> ∅);
     date := py "2024-07-01T02:00:00+00:00";
     source := py "WAM (Emirates News Agency)" |}.

(** ** Further sample inputs *)

(** A site whose listing request ends as [listing] and every other request
    as [article], with the given cards, article paragraphs and POST
    status. *)
Definition world_of (listing article : http_outcome) (cards : list card)
    (body : option (list pystr)) (post_status : Z) : world :=
  {| http_get := λ url,
       if startswith (py "https://wam.ae/en/search") url
       then listing else article;
     http_post := λ _ _, Response post_status [];
     select_cards := λ _, cards;
     select_article_body := λ _, body;
     utcnow := py "2024-07-01T02:00:00+00:00";
     APP_URL := Some (py "https://tripxl.example") |}.

Definition no_href_card : card :=
  {| title_elem := Some (py "Petrol prices set for August");
     date_elem := Some (py "2024-07-31");
     link_elem := Some None |}.

(** Cards that pass the filter and whose links are an absolute URL of
    another scheme, an absolute URL with its scheme in capitals, and a
    relative path that begins with the letters "http". *)
Definition ftp_card : card :=
  {| title_elem := Some (py "Fuel prices announced");
     date_elem := Some (py "2024-08-31");
     link_elem := Some (Some (py "ftp://wam.ae/feed/fuel.html")) |}.

Definition capitals_card : card :=
  {| title_elem := Some (py "Fuel prices announced");
     date_elem := Some (py "2024-08-31");
     link_elem := Some (Some (py "HTTPS://WAM.AE/en/article/fuel")) |}.

Definition http_path_card : card :=
  {| title_elem := Some (py "Fuel prices announced");
     date_elem := Some (py "2024-08-31");
     link_elem := Some (Some (py "http-archive/fuel.html")) |}.

Definition candidate_with_link (href : pystr) : candidate :=
  {| title := py "fuel prices announced";
     date_text := py "2024-08-31";
     link := Some href |}.

Definition july_candidate : candidate :=
  {| title := py "fuel prices announced for next month";
     date_text := py "2024-06-30";
     link := Some (py "/en/article/fuel-prices-july") |}.

(** The order the sort leaves between two neighbours: the later one is not
    greater. *)
Definition date_ge (a b : candidate) : Prop :=
  str_leb (date_text b) (date_text a) = true.

(** * Properties *)

(** ** The loop over the mapping *)

Lemma bind_Ok {A B} (a : A) (f : A → res B) : (Ok a ≫= f) = f a.
Proof. reflexivity. Qed.

Lemma iteration_lookup tl (m : gmap string Q) k c c' :
  iteration tl m (k, c) !! c' =
    if decide (c = c')
    then match recorded tl k with Some p => Some p | None => m !! c' end
    else m !! c'.
Proof.
  unfold iteration, try_body, recorded; simpl.
  destruct (find_price tl k) as [[p|]|e]; simpl.
  - destruct (negb (Qnum p =? 0)); simpl;
      case_decide; simplify_map_eq; done.
  - case_decide; done.
  - case_decide; done.
Qed.

Lemma foldl_iteration_other tl (l : list (pystr * string)) (m : gmap string Q) c :
  c ∉ l.*2 → foldl (iteration tl) m l !! c = m !! c.
Proof.
  revert m. induction l as [|[k c0] l IH]; intros m Hc; [done|].
  simpl in *. apply not_elem_of_cons in Hc as [Hne Hc].
  rewrite IH by done.
  rewrite iteration_lookup. by rewrite decide_False.
Qed.

Lemma foldl_iteration_lookup tl (l : list (pystr * string)) (m : gmap string Q) k c :
  NoDup l.*2 → (k, c) ∈ l →
  foldl (iteration tl) m l !! c =
    match recorded tl k with Some p => Some p | None => m !! c end.
Proof.
  revert m. induction l as [|[k0 c0] l IH]; intros m Hnd Hin.
  - by apply elem_of_nil in Hin.
  - simpl in *. apply NoDup_cons in Hnd as [Hc0 Hnd].
    apply elem_of_cons in Hin as [Heq | Hin].
    + inversion Heq; subst k0 c0.
      rewrite foldl_iteration_other by done.
      rewrite iteration_lookup. by rewrite decide_True.
    + rewrite (IH _ Hnd Hin). rewrite iteration_lookup.
      rewrite decide_False; [done|].
      intros ->. apply Hc0. apply list_elem_of_fmap. by exists (k, c).
Qed.

Lemma mapping_codes_NoDup : NoDup FUEL_TYPE_MAPPING.*2.
Proof. compute_done. Qed.

(** Every label decides its own entry, whatever the other labels do. *)
Lemma extract_prices_lookup text k c :
  (k, c) ∈ FUEL_TYPE_MAPPING →
  extract_prices text !! c = recorded (lower text) k.
Proof.
  intros Hin. unfold extract_prices.
  rewrite (foldl_iteration_lookup _ _ _ k c mapping_codes_NoDup Hin).
  rewrite lookup_empty. by destruct (recorded (lower text) k).
Qed.

Lemma extract_prices_dom text c :
  is_Some (extract_prices text !! c) → c ∈ FUEL_TYPE_MAPPING.*2.
Proof.
  intros Hs. destruct (decide (c ∈ FUEL_TYPE_MAPPING.*2)) as [|Hn]; [done|].
  unfold extract_prices in Hs. rewrite foldl_iteration_other in Hs by done.
  rewrite lookup_empty in Hs. by destruct Hs.
Qed.

(** ** Slices *)

Lemma slice_nonneg (s : pystr) i j :
  0 <= i → i <= j →
  slice s i j = take (Z.to_nat (j - i)) (drop (Z.to_nat i) s).
Proof.
  intros Hi Hj. unfold slice, adjust_index.
  destruct (Z.ltb_spec i 0); [lia|]. destruct (Z.ltb_spec j 0); [lia|].
  destruct (Z_le_gt_dec i (Z.of_nat (length s))) as [Hle|Hgt].
  - rewrite (Z.min_l i) by lia.
    destruct (Z_le_gt_dec j (Z.of_nat (length s))) as [Hle'|Hgt'].
    + by rewrite (Z.min_l j) by lia.
    + rewrite (Z.min_r j) by lia.
      rewrite !take_ge; [done | rewrite length_drop; lia ..].
  - rewrite (Z.min_r i), (Z.min_r j) by lia.
    rewrite !drop_ge by lia. by rewrite !take_nil.
Qed.

Lemma slice_after_prefix (pre mid tail : pystr) n :
  0 <= n →
  slice (pre ++ mid ++ tail)
        (Z.of_nat (length pre) + Z.of_nat (length mid))
        (Z.of_nat (length pre) + Z.of_nat (length mid) + n)
  = take (Z.to_nat n) tail.
Proof.
  intros Hn. rewrite slice_nonneg by lia.
  replace (Z.to_nat (Z.of_nat (length pre) + Z.of_nat (length mid)))
    with (length (pre ++ mid)) by (rewrite length_app; lia).
  rewrite app_assoc, drop_app_length. f_equal. lia.
Qed.

(** ** Whitespace: [strip] and [split] *)

Lemma split_go_rstrip s : ∀ w, split_go w (rstrip s) = split_go w s.
Proof.
  induction s as [|c s IH]; intros w; [done|].
  simpl. destruct (rstrip s) as [|a r] eqn:Hr.
  - destruct (is_space c) eqn:Hc; simpl.
    + rewrite <- (IH []). simpl. by rewrite app_nil_r.
    + rewrite Hc. by rewrite <- IH.
  - change (split_go w (c :: a :: r)) with
      (if is_space c then emit w ++ split_go [] (a :: r)
       else split_go (w ++ [c]) (a :: r)).
    by rewrite !IH.
Qed.

Lemma split_go_lstrip s : split_go [] (lstrip s) = split_go [] s.
Proof.
  induction s as [|c s IH]; [done|].
  simpl. destruct (is_space c) eqn:Hc; [done|].
  simpl. by rewrite Hc.
Qed.

(** Stripping first does not change the words. *)
Lemma split_strip s : split (strip s) = split s.
Proof. unfold split, strip. by rewrite split_go_rstrip, split_go_lstrip. Qed.

Lemma split_go_spaces sp s :
  forallb is_space sp = true → split_go [] (sp ++ s) = split_go [] s.
Proof.
  induction sp as [|c sp IH]; [done|]. simpl.
  intros [Hc Hsp]%andb_prop. rewrite Hc. by apply IH.
Qed.

Lemma split_go_word u s : ∀ w,
  forallb (λ c, negb (is_space c)) u = true →
  split_go w (u ++ s) = split_go (w ++ u) s.
Proof.
  induction u as [|c u IH]; intros w Hu.
  - by rewrite app_nil_r.
  - simpl in *. apply andb_prop in Hu as [Hc Hu].
    apply negb_true_iff in Hc. rewrite Hc, IH by done.
    by rewrite <- app_assoc.
Qed.

(** A word between whitespace and either whitespace or the end is the first
    word of the split. *)
Lemma split_first_word sp u tail :
  forallb is_space sp = true →
  u ≠ [] → forallb (λ c, negb (is_space c)) u = true →
  match tail with [] => True | c :: _ => is_space c = true end →
  ∃ ws, split (sp ++ u ++ tail) = u :: ws.
Proof.
  intros Hsp Hne Hu Ht. unfold split.
  rewrite split_go_spaces, split_go_word by done. simpl.
  destruct tail as [|c tail]; simpl.
  - exists []. by destruct u.
  - rewrite Ht. exists (split_go [] tail). by destruct u.
Qed.

(** ** Digits and [float] *)

Lemma span_digits_spec s d r :
  span_digits s = (d, r) →
  s = d ++ r ∧ forallb is_decimal d = true
  ∧ match r with [] => True | c :: _ => is_decimal c = false end.
Proof.
  revert d r. induction s as [|c s IH]; intros d r; simpl.
  - by intros [= <- <-].
  - destruct (is_decimal c) eqn:Hc.
    + destruct (span_digits s) as [d' r'] eqn:Hs. intros [= <- <-].
      destruct (IH d' r' eq_refl) as (-> & Hd & Hr).
      simpl. by rewrite Hc, Hd.
    + intros [= <- <-]. done.
Qed.

Lemma span_digits_app d r :
  forallb is_decimal d = true →
  match r with [] => True | c :: _ => is_decimal c = false end →
  span_digits (d ++ r) = (d, r).
Proof.
  intros Hd Hr. induction d as [|c d IH]; simpl in *.
  - destruct r as [|c r]; [done|]. simpl. by rewrite Hr.
  - apply andb_prop in Hd as [Hc Hd]. by rewrite Hc, IH.
Qed.

Lemma decimal_not_space c : is_decimal c = true → is_space c = false.
Proof.
  unfold is_decimal, is_space, between.
  intros H. repeat match goal with
                   | |- context [?a <=? ?b] => destruct (Z.leb_spec a b)
                   | |- context [?a =? ?b] => destruct (Z.eqb_spec a b)
                   | H : context [?a <=? ?b] |- _ => destruct (Z.leb_spec a b)
                   end; simpl in *; try done; lia.
Qed.

Lemma dot_not_space : is_space "." = false.
Proof. reflexivity. Qed.

Lemma literal_char_not_space c : literal_char c = true → is_space c = false.
Proof.
  unfold literal_char. intros [H|H]%orb_prop.
  - by apply decimal_not_space.
  - apply Ascii.eqb_eq in H as ->. apply dot_not_space.
Qed.

Lemma decimal_not_dot c : is_decimal c = true → Ascii.eqb c "." = false.
Proof.
  intros H. destruct (Ascii.eqb_spec c ".") as [->|]; [discriminate H | done].
Qed.

Lemma decimal_not_comma c : is_decimal c = true → Ascii.eqb c "," = false.
Proof.
  intros H. destruct (Ascii.eqb_spec c ",") as [->|]; [discriminate H | done].
Qed.

Lemma replace_app old new (a b : pystr) :
  replace old new (a ++ b) = replace old new a ++ replace old new b.
Proof. unfold replace. apply flat_map_app. Qed.

Lemma replace_digits old new (d : pystr) :
  is_decimal old = false →
  forallb is_decimal d = true → replace old new d = d.
Proof.
  intros Hold. induction d as [|c d IH]; [done|]. simpl.
  intros [Hc Hd]%andb_prop. unfold replace in *. simpl.
  destruct (Ascii.eqb_spec c old) as [->|]; [congruence|].
  simpl. f_equal. by apply IH.
Qed.

Lemma forallb_decimal_isdigit d :
  forallb is_decimal d = true → forallb isdigit_char d = true.
Proof.
  induction d as [|c d IH]; [done|]. simpl.
  intros [Hc Hd]%andb_prop. unfold isdigit_char. rewrite Hc. simpl. by apply IH.
Qed.

(** What [py_float] accepts: digits, at most one dot between them, a digit
    somewhere. *)
Lemma py_float_Ok w q :
  py_float w = Ok q →
  ∃ ip dot fp,
    w = ip ++ dot ++ fp ∧ (dot = [] ∧ fp = [] ∨ dot = py ".")
    ∧ forallb is_decimal ip = true ∧ forallb is_decimal fp = true
    ∧ ip ++ fp ≠ [] ∧ q = decimal ip fp.
Proof.
  unfold py_float. destruct (span_digits w) as [ip r] eqn:Hs.
  apply span_digits_spec in Hs as (-> & Hip & Hr).
  destruct r as [|c fp].
  - destruct ip as [|a ip]; [done|]. intros [= <-].
    exists (a :: ip), [], []. rewrite !app_nil_r. repeat split; auto.
  - destruct (Ascii.eqb_spec c ".") as [->|]; [|done]. simpl.
    destruct (forallb is_decimal fp) eqn:Hfp; [|done]. simpl.
    destruct (negb (is_nil ip && is_nil fp)) eqn:Hnn; [|done].
    intros [= <-]. exists ip, (py "."), fp. repeat split; auto.
    intros Hnil. apply app_eq_nil in Hnil as [-> ->]. done.
Qed.

Lemma py_float_literal ip fp :
  forallb is_decimal ip = true → forallb is_decimal fp = true →
  ip ++ fp ≠ [] →
  py_float (ip ++ "."%char :: fp) = Ok (decimal ip fp).
Proof.
  intros Hip Hfp Hne. unfold py_float.
  rewrite span_digits_app by done. simpl. rewrite Hfp. simpl.
  destruct ip, fp; done.
Qed.

Lemma py_float_chars w q :
  py_float w = Ok q → w ≠ [] ∧ forallb literal_char w = true.
Proof.
  intros (ip & dot & fp & -> & Hdot & Hip & Hfp & Hne & _)%py_float_Ok.
  assert (Hlit : ∀ d, forallb is_decimal d = true → forallb literal_char d = true).
  { induction d as [|c d IH]; [done|]. simpl. intros [Hc Hd]%andb_prop.
    unfold literal_char. rewrite Hc. simpl. by apply IH. }
  split.
  - intros Hnil. apply Hne.
    apply app_eq_nil in Hnil as [-> Hnil]. apply app_eq_nil in Hnil as [_ ->]. done.
  - rewrite !forallb_app, (Hlit ip), (Hlit fp) by done.
    destruct Hdot as [[-> _]| ->]; done.
Qed.

Lemma py_float_isdigit w q :
  py_float w = Ok q → isdigit (replace "." [] w) = true.
Proof.
  intros (ip & dot & fp & -> & Hdot & Hip & Hfp & Hne & _)%py_float_Ok.
  rewrite !replace_app.
  rewrite (replace_digits _ _ ip), (replace_digits _ _ fp) by done.
  assert (replace "." [] dot = []) as -> by (destruct Hdot as [[-> _]| ->]; done).
  simpl. unfold isdigit.
  destruct (ip ++ fp) eqn:E; [done|]. rewrite <- E.
  rewrite forallb_app. by rewrite !forallb_decimal_isdigit.
Qed.

Lemma fold_digits_nonneg d : ∀ acc,
  0 <= acc → forallb is_decimal d = true →
  0 <= fold_left (λ acc c, 10 * acc + digit_value c) d acc.
Proof.
  induction d as [|c d IH]; intros acc Ha Hd; simpl in *; [done|].
  apply andb_prop in Hd as [Hc Hd]. apply IH; [|done].
  unfold is_decimal, between in Hc. unfold digit_value. lia.
Qed.

Lemma digits_value_nonneg d :
  forallb is_decimal d = true → 0 <= digits_value d.
Proof. apply fold_digits_nonneg. lia. Qed.

Lemma py_float_nonneg w q : py_float w = Ok q → 0 <= Qnum q.
Proof.
  intros (ip & dot & fp & _ & _ & Hip & Hfp & _ & ->)%py_float_Ok.
  simpl. apply digits_value_nonneg. by rewrite forallb_app, Hip, Hfp.
Qed.

(** ** The regular expression *)

Lemma sep_not_decimal c : is_sep c = true → is_decimal c = false.
Proof.
  unfold is_sep. intros [H|H]%orb_prop; apply Ascii.eqb_eq in H as ->; reflexivity.
Qed.

(** A match is a maximal run of digits, a separator, a maximal run of
    digits. *)
Lemma match_at_Some s m :
  match_at s = Some m →
  ∃ d1 c d2 r,
    s = m ++ r ∧ m = d1 ++ c :: d2 ∧ d1 ≠ [] ∧ d2 ≠ []
    ∧ forallb is_decimal d1 = true ∧ forallb is_decimal d2 = true
    ∧ is_sep c = true
    ∧ match r with [] => True | x :: _ => is_decimal x = false end.
Proof.
  unfold match_at. destruct (span_digits s) as [d1 r1] eqn:H1.
  apply span_digits_spec in H1 as (-> & Hd1 & _).
  destruct d1 as [|a d1]; [done|]. destruct r1 as [|c r2]; [done|].
  destruct (is_sep c) eqn:Hc; [|done].
  destruct (span_digits r2) as [d2 r] eqn:H2.
  apply span_digits_spec in H2 as (-> & Hd2 & Hr).
  destruct d2 as [|b d2]; [done|]. intros [= <-].
  exists (a :: d1), c, (b :: d2), r. repeat split; try done.
  simpl. by rewrite <- app_assoc.
Qed.

(** [float] accepts every match once its comma is a dot. *)
Lemma match_float d1 c d2 :
  d1 ≠ [] → forallb is_decimal d1 = true → forallb is_decimal d2 = true →
  is_sep c = true →
  py_float (replace "," (py ".") (d1 ++ c :: d2)) = Ok (decimal d1 d2).
Proof.
  intros Hne Hd1 Hd2 Hc.
  change (c :: d2) with ([c] ++ d2). rewrite !replace_app.
  rewrite (replace_digits _ _ d1), (replace_digits _ _ d2) by done.
  assert (replace "," (py ".") [c] = py ".") as ->.
  { unfold is_sep in Hc. apply orb_prop in Hc as [H|H];
      apply Ascii.eqb_eq in H as ->; reflexivity. }
  apply py_float_literal; [done..|]. by destruct d1.
Qed.

(** The first element of [findall] is the match at the leftmost position
    that has one. *)
Lemma findall_first s : ∀ m ms,
  findall_go 0 s = m :: ms →
  ∃ pre, match_at (drop (length pre) s) = Some m
    ∧ take (length pre) s = pre
    ∧ ∀ i, (i < length pre)%nat → match_at (drop i s) = None.
Proof.
  induction s as [|a s IH]; intros m ms; [done|].
  simpl. destruct (match_at (a :: s)) as [m'|] eqn:Hm.
  - intros [= <- _]. exists []. repeat split; [done|]. simpl. lia.
  - intros (pre & Hpre & Htk & Hno)%IH. exists (a :: pre).
    simpl. rewrite Htk. repeat split; [done|].
    intros [|i] Hi; [done|]. simpl. apply Hno. lia.
Qed.

Lemma findall_none s :
  findall_go 0 s = [] → ∀ i, match_at (drop i s) = None.
Proof.
  induction s as [|a s IH]; intros H i.
  - by destruct i.
  - simpl in H. destruct (match_at (a :: s)) eqn:Hm; [done|].
    destruct i as [|i]; [done|]. simpl. by apply IH.
Qed.

(** ** One label *)

Lemma str_in_find sub s : str_in sub s = false ↔ str_find sub s = -1.
Proof.
  unfold str_in. rewrite negb_false_iff. apply Z.eqb_eq.
Qed.

Lemma find_price_absent tl key :
  str_find key tl = -1 → find_price tl key = Ok None.
Proof. unfold find_price. by intros ->. Qed.

Lemma find_price_window tl key :
  str_find key tl ≠ -1 →
  find_price tl key =
    (price ← aed_price (window tl key); regex_price (window tl key) price).
Proof.
  intros H. unfold find_price, window.
  by destruct (Z.eqb_spec (str_find key tl) (-1)).
Qed.

(** The primary pattern on a window that shows the currency marker, blanks
    and a literal ending within the seven characters read. *)
Lemma aed_price_literal win pre sp num tail v :
  win = pre ++ py "aed" ++ sp ++ num ++ tail →
  str_find (py "aed") win = Z.of_nat (length pre) →
  forallb is_space sp = true →
  py_float num = Ok v →
  (length sp + length num <= 7)%nat →
  match tail with [] => True | c :: _ => is_space c = true end →
  aed_price win = Ok (Some v).
Proof.
  intros Hwin Hfind Hsp Hnum Hlen Htail. unfold aed_price.
  assert (str_in (py "aed") win = true) as ->.
  { unfold str_in. rewrite Hfind. apply negb_true_iff, Z.eqb_neq. lia. }
  rewrite Hfind.
  assert (slice win (Z.of_nat (length pre) + 3) (Z.of_nat (length pre) + 10)
          = sp ++ num ++ take (7 - length sp - length num) tail) as ->.
  { rewrite Hwin.
    replace (Z.of_nat (length pre) + 10)
      with (Z.of_nat (length pre) + Z.of_nat (length (py "aed")) + 7)
      by (simpl; lia).
    replace (Z.of_nat (length pre) + 3)
      with (Z.of_nat (length pre) + Z.of_nat (length (py "aed")))
      by (simpl; lia).
    rewrite slice_after_prefix by lia.
    change (Z.to_nat 7) with 7%nat.
    rewrite take_app, (take_ge sp) by lia.
    rewrite take_app, (take_ge num) by lia.
    do 3 f_equal. }
  rewrite split_strip.
  destruct (py_float_chars _ _ Hnum) as [Hne Hchars].
  destruct (split_first_word sp num (take (7 - length sp - length num) tail))
    as [ws ->]; try done.
  - clear -Hchars. induction num as [|c num IH]; [done|]. simpl in *.
    apply andb_prop in Hchars as [Hc Hn].
    by rewrite (literal_char_not_space c Hc), IH.
  - destruct tail as [|c tail]; [by rewrite take_nil|].
    by destruct (7 - length sp - length num)%nat.
  - simpl. by rewrite (py_float_isdigit _ _ Hnum), Hnum.
Qed.

Lemma aed_price_no_marker win :
  str_in (py "aed") win = false → aed_price win = Ok None.
Proof. unfold aed_price. by intros ->. Qed.

Lemma regex_price_match win m ms :
  re_findall win = m :: ms →
  ∃ d1 c d2, m = d1 ++ c :: d2 ∧ is_sep c = true
    ∧ forallb is_decimal d1 = true ∧ forallb is_decimal d2 = true
    ∧ py_float (replace "," (py ".") m) = Ok (decimal d1 d2)
    ∧ regex_price win None = Ok (Some (decimal d1 d2)).
Proof.
  intros Hm. destruct (findall_first _ _ _ Hm) as (pre & Hat & _ & _).
  apply match_at_Some in Hat
    as (d1 & c & d2 & r & _ & -> & Hn1 & _ & Hd1 & Hd2 & Hc & _).
  pose proof (match_float d1 c d2 Hn1 Hd1 Hd2 Hc) as Hf.
  exists d1, c, d2. repeat split; try done.
  unfold regex_price. rewrite Hm. by rewrite Hf.
Qed.

Lemma first_number_nonneg ws q :
  first_number ws = Ok (Some q) → 0 <= Qnum q.
Proof.
  induction ws as [|w ws IH]; [done|]. simpl.
  destruct (isdigit (replace "." [] w)); [|done].
  destruct (py_float w) as [p|e] eqn:Hp; [|done].
  intros [= <-]. by apply py_float_nonneg in Hp.
Qed.

Lemma find_price_nonneg tl key q :
  find_price tl key = Ok (Some q) → 0 <= Qnum q.
Proof.
  unfold find_price. destruct (str_find key tl =? -1); [done|].
  set (win := slice _ _ _).
  destruct (aed_price win) as [[p|]|e] eqn:Ha; [| |done].
  - intros [= <-]. unfold aed_price in Ha.
    destruct (str_in _ _); [|done]. by apply first_number_nonneg in Ha.
  - change (regex_price win None = Ok (Some q) → 0 <= Qnum q).
    destruct (re_findall win) as [|m ms] eqn:Hm.
    { unfold regex_price. by rewrite Hm. }
    destruct (regex_price_match _ _ _ Hm)
      as (d1 & c & d2 & _ & _ & Hd1 & Hd2 & _ & Hr).
    rewrite Hr. intros [= <-]. simpl.
    apply digits_value_nonneg. by rewrite forallb_app, Hd1, Hd2.
Qed.

Lemma recorded_positive tl key q : recorded tl key = Some q → (0 < q)%Q.
Proof.
  unfold recorded. destruct (find_price tl key) as [[p|]|e] eqn:Hp; [|done..].
  simpl. destruct (Z.eqb_spec (Qnum p) 0) as [|Hnz]; [done|].
  intros [= <-]. apply find_price_nonneg in Hp.
  unfold Qlt. simpl. lia.
Qed.

Lemma mapping_elem c :
  c ∈ FUEL_TYPE_MAPPING.*2 → ∃ k, (k, c) ∈ FUEL_TYPE_MAPPING.
Proof.
  intros ([k c'] & -> & Hin)%list_elem_of_fmap. by exists k.
Qed.

Lemma extract_fuel_prices_Some now text r :
  extract_fuel_prices now text = Some r ↔
  extract_prices text ≠ ∅
  ∧ r = {| prices := extract_prices text; date := now;
           source := py "WAM (Emirates News Agency)" |}.
Proof.
  unfold extract_fuel_prices. case_bool_decide as Hne.
  - split; [by intros [= <-] | by intros [_ ->]].
  - split; [done | by intros [? _]].
Qed.

Lemma extract_fuel_prices_entry now text c v :
  extract_prices text !! c = Some v →
  ∃ r, extract_fuel_prices now text = Some r ∧ prices r !! c = Some v.
Proof.
  intros Hv.
  exists {| prices := extract_prices text; date := now;
            source := py "WAM (Emirates News Agency)" |}.
  split; [|exact Hv].
  apply extract_fuel_prices_Some. split; [|done].
  intros He. by rewrite He, lookup_empty in Hv.
Qed.

(** ** [find], [in] and [findall] against their meaning *)

Lemma startswith_spec p : ∀ s, startswith p s = true ↔ ∃ post, s = p ++ post.
Proof.
  induction p as [|a p IH]; intros s; simpl.
  - split; [by exists s | done].
  - destruct s as [|b s].
    + split; [done | by intros [post ?]].
    + rewrite andb_true_iff, Ascii.eqb_eq, IH. split.
      * intros [-> [post ->]]. by exists post.
      * intros [post [= -> ->]]. split; [done | by exists post].
Qed.

Lemma str_find_ge sub s : -1 <= str_find sub s.
Proof.
  induction s as [|a s IH]; simpl.
  - destruct (startswith sub []); lia.
  - destruct (startswith sub (a :: s)); [lia|].
    destruct (Z.eqb_spec (str_find sub s) (-1)); lia.
Qed.

(** [find] returns [-1] exactly when there is no occurrence. *)
Lemma str_find_none sub s : str_find sub s = -1 ↔ ¬ occurs sub s.
Proof.
  unfold occurs. induction s as [|a s IH]; simpl.
  - destruct (startswith sub []) eqn:Hs.
    + apply startswith_spec in Hs as [post Hs]. split; [done|].
      intros H. exfalso. apply H. by exists [], post.
    + split; [|done]. intros _ (pre & post & H).
      symmetry in H. apply app_eq_nil in H as [-> H]. simpl in H.
      assert (startswith sub [] = true) by (apply startswith_spec; by exists post).
      congruence.
  - destruct (startswith sub (a :: s)) eqn:Hs.
    + apply startswith_spec in Hs as [post Hs]. split; [done|].
      intros H. exfalso. apply H. by exists [], post.
    + pose proof (str_find_ge sub s).
      destruct (Z.eqb_spec (str_find sub s) (-1)) as [Hr|Hr].
      * split; [|done]. intros _ (pre & post & H').
        destruct pre as [|b pre].
        -- assert (startswith sub (a :: s) = true)
             by (apply startswith_spec; by exists post).
           congruence.
        -- injection H' as -> ->. apply IH in Hr. apply Hr. by exists pre, post.
      * split; [lia|]. intros Hno. exfalso. apply Hr, IH.
        intros (pre & post & ->). apply Hno. by exists (a :: pre), post.
Qed.

Lemma str_in_false sub s : str_in sub s = false ↔ ¬ occurs sub s.
Proof. rewrite str_in_find. apply str_find_none. Qed.

Lemma span_digits_more d r :
  forallb is_decimal d = true →
  span_digits (d ++ r) = ((d ++ (span_digits r).1), (span_digits r).2).
Proof.
  intros Hd. induction d as [|c d IH]; simpl in *.
  - by destruct (span_digits r).
  - apply andb_prop in Hd as [Hc Hd]. by rewrite Hc, IH.
Qed.

(** The anchored match finds a match whenever some prefix matches. *)
Lemma match_at_complete m r : pattern_match m → is_Some (match_at (m ++ r)).
Proof.
  intros (d1 & c & d2 & -> & Hn1 & Hn2 & Hd1 & Hd2 & Hc).
  unfold match_at. rewrite <- app_assoc.
  rewrite span_digits_app; [|done|by apply sep_not_decimal].
  destruct d1 as [|a d1]; [done|]. simpl. rewrite Hc.
  rewrite span_digits_more by done.
  destruct (span_digits r) as [d' r']. simpl.
  destruct d2; [done|]. simpl. by eexists.
Qed.

Lemma match_at_pattern s m : match_at s = Some m → pattern_match m.
Proof.
  intros (d1 & c & d2 & r & _ & -> & ? & ? & ? & ? & ? & _)%match_at_Some.
  by exists d1, c, d2.
Qed.

(** [findall] is empty exactly when no substring matches. *)
Lemma re_findall_nil s :
  re_findall s = [] ↔ ∀ pre m post, s = pre ++ m ++ post → ¬ pattern_match m.
Proof.
  split.
  - intros Hnil pre m post -> Hm.
    pose proof (findall_none _ Hnil (length pre)) as Hno.
    rewrite drop_app_length in Hno.
    destruct (match_at_complete m post Hm) as [x Hx]. congruence.
  - intros Hno. destruct (re_findall s) as [|m ms] eqn:Hm; [done|].
    destruct (findall_first _ _ _ Hm) as (pre & Hat & Htk & _).
    pose proof (match_at_pattern _ _ Hat) as Hpat.
    apply match_at_Some in Hat as (_ & _ & _ & r & Hdrop & _).
    exfalso. apply (Hno pre m r); [|done].
    rewrite <- Hdrop, <- Htk at 1. by rewrite take_drop.
Qed.

(** ** The claims on the price extractor *)

(** C1, as amended.  When the label occurs in the lower-cased text and, in
    the 100-character window starting at its first occurrence, the first
    "aed" is followed by optional whitespace and a decimal literal (digits
    with at most one dot) that lies within the 7 characters after the marker
    and ends at whitespace or at the end of the window, and the literal's
    value is not zero, then [extract_fuel_prices] returns a report whose
    price under the mapped code is exactly that value. *)
Theorem C1_aed_number_recorded now text key code pre sp num tail v :
  (key, code) ∈ FUEL_TYPE_MAPPING →
  str_find key (lower text) ≠ -1 →
  window (lower text) key = pre ++ py "aed" ++ sp ++ num ++ tail →
  str_find (py "aed") (window (lower text) key) = Z.of_nat (length pre) →
  forallb is_space sp = true →
  py_float num = Ok v →
  Qnum v ≠ 0 →
  (length sp + length num <= 7)%nat →
  match tail with [] => True | c :: _ => is_space c = true end →
  ∃ r, extract_fuel_prices now text = Some r ∧ prices r !! code = Some v.
Proof.
  intros Hin Hpos Hwin Hfind Hsp Hnum Hnz Hlen Htail.
  apply extract_fuel_prices_entry.
  rewrite (extract_prices_lookup _ _ _ Hin). unfold recorded.
  rewrite find_price_window by done.
  rewrite (aed_price_literal _ _ _ _ _ _ Hwin Hfind Hsp Hnum Hlen Htail).
  rewrite bind_Ok. simpl. by destruct (Z.eqb_spec (Qnum v) 0).
Qed.

Lemma C1_aed_number_recorded_witness :
  ∃ r, extract_fuel_prices (py "2024-07-01T02:00:00+00:00")
         (py "Special 95 will cost AED 2.72 per litre") = Some r
       ∧ prices r !! "PETROL"%string = Some (272 # 100).
Proof.
  apply (C1_aed_number_recorded _ _ (py "special 95") "PETROL"%string
           (py "special 95 will cost ") (py " ") (py "2.72") (py " per litre")).
  - apply list_elem_of_here.
  - intros H. vm_compute in H. discriminate H.
  - reflexivity.
  - reflexivity.
  - reflexivity.
  - reflexivity.
  - intros H. discriminate H.
  - simpl. lia.
  - reflexivity.
Defined.

(** C1 as stated fails: the number after "aed" is read from 7 characters
    only, so a longer number comes back truncated. *)
Lemma C1_counterexample :
  let text := py "Diesel AED 1234.5678 per litre" in
  (py "diesel", "DIESEL"%string) ∈ FUEL_TYPE_MAPPING
  ∧ window (lower text) (py "diesel")
    = py "diesel " ++ py "aed" ++ py " " ++ py "1234.5678" ++ py " per litre"
  ∧ py_float (py "1234.5678") = Ok (12345678 # 10000)
  ∧ extract_prices text !! "DIESEL"%string = Some (12345 # 10)
  ∧ ¬ (12345 # 10 == 12345678 # 10000)%Q.
Proof.
  simpl. split; [do 3 apply list_elem_of_further; apply list_elem_of_here|].
  repeat split; try (vm_compute; reflexivity).
  intros H. vm_compute in H. discriminate H.
Qed.

(** C5, as amended.  When the window of a label found in the text has no
    "aed" but has a match of digits, separator, digits, [float] accepts the
    first match with its comma turned into a dot, and that value is recorded
    under the mapped code unless it is zero; a zero value leaves the code
    absent. *)
Theorem C5_regex_number_recorded text key code m ms :
  (key, code) ∈ FUEL_TYPE_MAPPING →
  str_find key (lower text) ≠ -1 →
  str_in (py "aed") (window (lower text) key) = false →
  re_findall (window (lower text) key) = m :: ms →
  ∃ v, py_float (replace "," (py ".") m) = Ok v
       ∧ extract_prices text !! code = (if Qnum v =? 0 then None else Some v).
Proof.
  intros Hin Hpos Haed Hm.
  destruct (regex_price_match _ _ _ Hm) as (d1 & c & d2 & _ & _ & _ & _ & Hf & Hr).
  exists (decimal d1 d2). split; [done|].
  rewrite (extract_prices_lookup _ _ _ Hin). unfold recorded.
  rewrite find_price_window by done.
  rewrite (aed_price_no_marker _ Haed).
  rewrite bind_Ok, Hr. unfold truthy. by destruct (Qnum (decimal d1 d2) =? 0).
Qed.

Lemma C5_regex_number_recorded_witness :
  ∃ v, py_float (replace "," (py ".") (py "2,80")) = Ok v
       ∧ extract_prices (py "Diesel: 2,80 dirhams a litre") !! "DIESEL"%string
         = (if Qnum v =? 0 then None else Some v).
Proof.
  apply (C5_regex_number_recorded _ (py "diesel") "DIESEL"%string _ []).
  - do 3 apply list_elem_of_further. apply list_elem_of_here.
  - intros H. vm_compute in H. discriminate H.
  - reflexivity.
  - reflexivity.
Defined.

(** C5 as stated fails on a match whose value is zero: nothing is
    recorded. *)
Lemma C5_counterexample :
  let text := py "Diesel 0.00 dirhams" in
  str_find (py "diesel") (lower text) = 0
  ∧ str_in (py "aed") (window (lower text) (py "diesel")) = false
  ∧ re_findall (window (lower text) (py "diesel")) = [py "0.00"]
  ∧ py_float (replace "," (py ".") (py "0.00")) = Ok (0 # 100)
  ∧ extract_prices text !! "DIESEL"%string = None.
Proof. repeat split; vm_compute; reflexivity. Qed.

(** C6.  When the window of a label found in the text contains neither
    "aed" nor any substring of digits, separator, digits, the mapped code is
    not a key of the price map: looking it up gives nothing. *)
Theorem C6_no_pattern_no_key text key code :
  (key, code) ∈ FUEL_TYPE_MAPPING →
  str_find key (lower text) ≠ -1 →
  ¬ occurs (py "aed") (window (lower text) key) →
  (∀ pre m post, window (lower text) key = pre ++ m ++ post → ¬ pattern_match m) →
  extract_prices text !! code = None ∧ code ∉ dom (extract_prices text).
Proof.
  intros Hin Hpos Haed%str_in_false Hm%re_findall_nil.
  assert (extract_prices text !! code = None) as Hnone.
  { rewrite (extract_prices_lookup _ _ _ Hin). unfold recorded.
    rewrite find_price_window by done.
    rewrite (aed_price_no_marker _ Haed).
    rewrite bind_Ok. unfold regex_price. by rewrite Hm. }
  split; [done|]. by apply not_elem_of_dom.
Qed.

Lemma C6_no_pattern_no_key_witness :
  extract_prices (py "Diesel prices stay at 3 dirhams") !! "DIESEL"%string = None
  ∧ "DIESEL"%string ∉ dom (extract_prices (py "Diesel prices stay at 3 dirhams")).
Proof.
  apply (C6_no_pattern_no_key _ (py "diesel")).
  - do 3 apply list_elem_of_further. apply list_elem_of_here.
  - intros H. vm_compute in H. discriminate H.
  - apply str_in_false. reflexivity.
  - apply re_findall_nil. reflexivity.
Defined.

(** C7.  The entry of a code is the price its label's iteration found when
    that price is not zero; a price of exactly zero, no price, or an
    exception leaves the code absent.  Hence every value in the price map is
    strictly positive. *)
Theorem C7_zero_or_failure_absent text :
  (∀ key code, (key, code) ∈ FUEL_TYPE_MAPPING →
     extract_prices text !! code =
       match find_price (lower text) key with
       | Ok (Some p) => if Qnum p =? 0 then None else Some p
       | Ok None => None
       | Raise _ => None
       end)
  ∧ (∀ code v, extract_prices text !! code = Some v → (0 < v)%Q).
Proof.
  split.
  - intros key code Hin. rewrite (extract_prices_lookup _ _ _ Hin).
    unfold recorded. destruct (find_price (lower text) key) as [[p|]|e]; try done.
    simpl. by destruct (Qnum p =? 0).
  - intros code v Hv.
    destruct (mapping_elem code) as [key Hin].
    { apply (extract_prices_dom text). by rewrite Hv. }
    rewrite (extract_prices_lookup _ _ _ Hin) in Hv.
    by apply recorded_positive in Hv.
Qed.

(** C8.  When the iteration of one label raises, its code stays absent and
    the iteration of any other label still records the non-zero price it
    finds. *)
Theorem C8_exception_isolated text key1 code1 key2 code2 e p :
  (key1, code1) ∈ FUEL_TYPE_MAPPING →
  (key2, code2) ∈ FUEL_TYPE_MAPPING →
  find_price (lower text) key1 = Raise e →
  find_price (lower text) key2 = Ok (Some p) →
  Qnum p ≠ 0 →
  extract_prices text !! code1 = None ∧ extract_prices text !! code2 = Some p.
Proof.
  intros H1 H2 He Hp Hnz.
  rewrite (extract_prices_lookup _ _ _ H1), (extract_prices_lookup _ _ _ H2).
  unfold recorded. rewrite He, Hp. simpl.
  by destruct (Z.eqb_spec (Qnum p) 0).
Qed.

Lemma C8_exception_isolated_witness :
  let text := py "Special 95 is AED 2.72. Diesel is AED 2.80 a litre" in
  extract_prices text !! "PETROL"%string = None
  ∧ extract_prices text !! "DIESEL"%string = Some (280 # 100).
Proof.
  apply (C8_exception_isolated _ (py "special 95") _ (py "diesel") _ ValueError).
  - apply list_elem_of_here.
  - do 3 apply list_elem_of_further. apply list_elem_of_here.
  - reflexivity.
  - reflexivity.
  - intros H. discriminate H.
Defined.

Lemma extract_prices_codes text : dom (extract_prices text) ⊆ FUEL_CODES.
Proof.
  intros c Hc%elem_of_dom%extract_prices_dom.
  simpl in Hc. unfold FUEL_CODES.
  rewrite !elem_of_union, !elem_of_singleton.
  repeat (apply elem_of_cons in Hc as [->|Hc]; [tauto|]).
  by apply elem_of_nil in Hc.
Qed.

Lemma FUEL_CODES_size : size FUEL_CODES = 4%nat.
Proof. compute_done. Qed.

(** C10.  On every text [extract_fuel_prices] returns, and returns either
    [None] or a report whose price map is not empty, has its keys among the
    four codes, hence at most four entries, and which carries the date and
    the source. *)
Theorem C10_extract_total now text :
  extract_fuel_prices now text = None
  ∨ ∃ r, extract_fuel_prices now text = Some r
      ∧ prices r ≠ ∅
      ∧ dom (prices r) ⊆ FUEL_CODES
      ∧ (size (prices r) <= 4)%nat
      ∧ date r = now
      ∧ source r = py "WAM (Emirates News Agency)".
Proof.
  destruct (extract_fuel_prices now text) as [r|] eqn:Hr; [right | by left].
  exists r. split; [done|].
  apply extract_fuel_prices_Some in Hr as [Hne ->]. simpl.
  repeat split; try done.
  - apply extract_prices_codes.
  - rewrite <- size_dom, <- FUEL_CODES_size.
    apply subseteq_size, extract_prices_codes.
Qed.

(** ** The order on date texts *)

Lemma str_ltb_irrefl a : str_ltb a a = false.
Proof.
  induction a as [|x a IH]; [done|]. simpl.
  rewrite IH, Z.ltb_irrefl, Z.eqb_refl. done.
Qed.

Lemma str_ltb_asym a : ∀ b, str_ltb a b = true → str_ltb b a = false.
Proof.
  induction a as [|x a IH]; intros [|y b]; simpl; try done.
  destruct (Z.ltb_spec (ord x) (ord y)), (Z.ltb_spec (ord y) (ord x)),
    (Z.eqb_spec (ord x) (ord y)), (Z.eqb_spec (ord y) (ord x));
    simpl; try done; try lia.
  apply IH.
Qed.

(** If [c < a] then every [b] is above [c] or below [a]. *)
Lemma str_ltb_cotrans c : ∀ a b,
  str_ltb c a = true → str_ltb c b = true ∨ str_ltb b a = true.
Proof.
  induction c as [|x c IH]; intros [|y a] [|z b]; simpl; try done; auto.
  destruct (Z.ltb_spec (ord x) (ord y)), (Z.ltb_spec (ord x) (ord z)),
    (Z.ltb_spec (ord z) (ord y)), (Z.eqb_spec (ord x) (ord y)),
    (Z.eqb_spec (ord x) (ord z)), (Z.eqb_spec (ord z) (ord y));
    simpl; auto; try lia.
Qed.

Lemma str_leb_refl a : str_leb a a = true.
Proof. unfold str_leb. by rewrite str_ltb_irrefl. Qed.

Lemma str_ltb_leb a b : str_ltb a b = true → str_leb a b = true.
Proof. unfold str_leb. intros H. by rewrite (str_ltb_asym _ _ H). Qed.

Lemma str_leb_trans a b c :
  str_leb a b = true → str_leb b c = true → str_leb a c = true.
Proof.
  unfold str_leb. rewrite !negb_true_iff. intros Hab Hbc.
  destruct (str_ltb c a) eqn:Hca; [|done].
  destruct (str_ltb_cotrans _ _ b Hca); congruence.
Qed.

(** ** The sort and the choice of the latest candidate *)

Lemma insert_desc_head x l :
  head (insert_desc x l) =
    match l with
    | [] => Some x
    | y :: _ => if str_ltb (date_text x) (date_text y) then Some y else Some x
    end.
Proof. destruct l as [|y l]; [done|]. simpl. by destruct (str_ltb _ _). Qed.

(** The head of the sorted list: an entry no entry exceeds, and the first
    such entry of the list. *)
Lemma sort_head l :
  match head (sort_by_date_desc l) with
  | None => l = []
  | Some a =>
      (∀ b, b ∈ l → str_leb (date_text b) (date_text a) = true)
      ∧ ∃ l1 l2, l = l1 ++ a :: l2
          ∧ ∀ b, b ∈ l1 → str_ltb (date_text b) (date_text a) = true
  end.
Proof.
  induction l as [|x l IH]; [done|].
  simpl. rewrite insert_desc_head.
  destruct (sort_by_date_desc l) as [|y s] eqn:Hs; simpl in IH.
  - subst l. split.
    + intros b ->%list_elem_of_singleton. apply str_leb_refl.
    + exists [], []. split; [done|]. intros b Hb. by apply elem_of_nil in Hb.
  - destruct IH as (Hmax & l1 & l2 & -> & Hlt).
    destruct (str_ltb (date_text x) (date_text y)) eqn:Hxy.
    + split.
      * intros b [->|Hb]%elem_of_cons; [by apply str_ltb_leb | by apply Hmax].
      * exists (x :: l1), l2. split; [done|].
        intros b [->|Hb]%elem_of_cons; [done | by apply Hlt].
    + split.
      * intros b [->|Hb]%elem_of_cons; [apply str_leb_refl|].
        apply (str_leb_trans _ (date_text y)); [by apply Hmax|].
        unfold str_leb. by rewrite Hxy.
      * exists [], (l1 ++ y :: l2). split; [done|].
        intros b Hb. by apply elem_of_nil in Hb.
Qed.

Lemma candidate_of_Some article a :
  candidate_of article = Some a →
  ∃ t d href,
    title_elem article = Some t ∧ date_elem article = Some d
    ∧ link_elem article = Some href
    ∧ a = {| title := lower (strip t); date_text := strip d; link := href |}
    ∧ is_announcement (lower (strip t)) = true.
Proof.
  unfold candidate_of.
  destruct (title_elem article) as [t|]; [|done].
  destruct (date_elem article) as [d|]; [|done].
  destruct (link_elem article) as [href|]; [|done].
  destruct (is_announcement (lower (strip t))) eqn:Hk; [|done].
  intros [= <-]. by exists t, d, href.
Qed.

(** ** The filter, in words *)

(** [find] returns the position of an occurrence. *)
Lemma str_find_pos sub s :
  str_find sub s ≠ -1 →
  ∃ pre post, s = pre ++ sub ++ post ∧ str_find sub s = Z.of_nat (length pre).
Proof.
  induction s as [|a s IH]; simpl.
  - destruct (startswith sub []) eqn:Hs; [|done]. intros _.
    apply startswith_spec in Hs as [post Hs]. by exists [], post.
  - destruct (startswith sub (a :: s)) eqn:Hs.
    + intros _. apply startswith_spec in Hs as [post Hs]. by exists [], post.
    + destruct (Z.eqb_spec (str_find sub s) (-1)) as [|Hr]; [done|]. intros _.
      destruct (IH Hr) as (pre & post & -> & Hpos).
      exists (a :: pre), post. split; [done|]. simpl length. lia.
Qed.

Lemma str_in_true sub s : str_in sub s = true ↔ occurs sub s.
Proof.
  split.
  - unfold str_in. intros H%negb_true_iff%Z.eqb_neq.
    destruct (str_find_pos _ _ H) as (pre & post & Hs & _). by exists pre, post.
  - intros Hocc. destruct (str_in sub s) eqn:Hin; [done|].
    by apply str_in_false in Hin.
Qed.

(** The test of the code is the keyword condition: both groups are needed,
    and each is met by either of its two words. *)
Lemma is_announcement_spec t : is_announcement t = true ↔ title_matches t.
Proof.
  unfold is_announcement, title_matches.
  by rewrite andb_true_iff, !orb_true_iff, !str_in_true.
Qed.

(** The loop keeps a card exactly when it survives, with the candidate built
    from its three elements. *)
Lemma candidate_of_spec article a :
  candidate_of article = Some a ↔ survives article a.
Proof.
  unfold survives. split.
  - intros (t & d & href & Ht & Hd & Hl & -> & Hk)%candidate_of_Some.
    exists t, d, href. by rewrite <- is_announcement_spec.
  - intros (t & d & href & Ht & Hd & Hl & Hk%is_announcement_spec & ->).
    unfold candidate_of. by rewrite Ht, Hd, Hl, Hk.
Qed.

(** ** The claims on the announcement selector *)

(** C2.  The survivors of the filter are exactly the cards that have the
    three elements and whose stripped, lower-cased title contains one of
    "fuel price", "petrol price" and one of "announce", "set"; every other
    card is discarded.  The selector selects a survivor whose date text no
    survivor exceeds in the order of strings, and selects nothing exactly
    when no card survives.  So a card that fails the test is never the
    selected one, whatever its date text. *)
Theorem C2_filter_then_latest (articles : list card) :
  (∀ a, a ∈ fuel_price_articles articles ↔
        ∃ article, article ∈ articles ∧ survives article a)
  ∧ match latest_article articles with
    | Some a =>
        (∃ article, article ∈ articles ∧ survives article a)
        ∧ title_matches (title a)
        ∧ (∀ article b, article ∈ articles → survives article b →
                        str_leb (date_text b) (date_text a) = true)
    | None => ∀ article a, article ∈ articles → ¬ survives article a
    end.
Proof.
  assert (∀ a, a ∈ fuel_price_articles articles ↔
               ∃ article, article ∈ articles ∧ survives article a) as Hsurv.
  { intros a. unfold fuel_price_articles. rewrite list_elem_of_omap.
    by setoid_rewrite candidate_of_spec. }
  split; [done|].
  unfold latest_article.
  pose proof (sort_head (fuel_price_articles articles)) as H.
  destruct (head _) as [a|].
  - destruct H as (Hmax & l1 & l2 & Hl & _).
    assert (a ∈ fuel_price_articles articles) as Ha.
    { rewrite Hl. apply elem_of_app. right. apply list_elem_of_here. }
    apply Hsurv in Ha as (article & Hin & Hs).
    split; [by exists article|]. split.
    + by destruct Hs as (t & d & href & _ & _ & _ & Hk & ->).
    + intros article' b Hin' Hs'. apply Hmax, Hsurv. by exists article'.
  - intros article a Hin Hs.
    assert (a ∈ fuel_price_articles articles) as Ha
      by (apply Hsurv; by exists article).
    rewrite H in Ha. by apply elem_of_nil in Ha.
Qed.

Lemma origin_prefix_absolute href :
  is_absolute_url (py "https://wam.ae" ++ href) = true.
Proof. reflexivity. Qed.

(** C9, as amended.  When the listing was fetched and a candidate that has a
    link was selected, the link is resolved by whether it starts with
    "http": a link that does not is prefixed with the site origin
    "https://wam.ae", which gives an absolute URL, and a link that does is
    passed through unchanged.  The resolved URL is the one the selector
    requests next. *)
Theorem C9_link_resolved w html latest href :
  raise_for_status (http_get w WAM_FUEL_PRICES_URL) = Ok html →
  latest_article (select_cards w html) = Some latest →
  link latest = Some href →
  ∃ article_url,
    article_url_of latest = Ok article_url
    ∧ (scrape_wam_for_fuel_prices w).2
      = [Get WAM_FUEL_PRICES_URL; Get article_url]
    ∧ (startswith (py "http") href = false →
       article_url = py "https://wam.ae" ++ href
       ∧ is_absolute_url article_url = true)
    ∧ (startswith (py "http") href = true → article_url = href).
Proof.
  intros Hget Hlatest Hlink.
  set (article_url :=
         if startswith (py "http") href then href else py "https://wam.ae" ++ href).
  assert (article_url_of latest = Ok article_url) as Hurl.
  { unfold article_url_of, article_url. rewrite Hlink.
    by destruct (startswith (py "http") href). }
  exists article_url. split; [done|]. split.
  - unfold scrape_wam_for_fuel_prices, scrape_body. rewrite Hget.
    destruct (select_cards w html) as [|c cs] eqn:Hcards; [done|].
    simpl is_nil. cbv iota. rewrite Hlatest, Hurl.
    destruct (raise_for_status (http_get w article_url)) as [page|e]; [|done].
    by destruct (select_article_body w page).
  - unfold article_url. split; intros ->; [|done].
    split; [done | apply origin_prefix_absolute].
Qed.

Lemma C9_link_resolved_witness :
  ∃ article_url,
    article_url_of july_candidate = Ok article_url
    ∧ (scrape_wam_for_fuel_prices (sample_world 200)).2
      = [Get WAM_FUEL_PRICES_URL; Get article_url]
    ∧ (startswith (py "http") (py "/en/article/fuel-prices-july") = false →
       article_url = py "https://wam.ae" ++ py "/en/article/fuel-prices-july"
       ∧ is_absolute_url article_url = true)
    ∧ (startswith (py "http") (py "/en/article/fuel-prices-july") = true →
       article_url = py "/en/article/fuel-prices-july").
Proof.
  apply (C9_link_resolved (sample_world 200) (py "<listing>") july_candidate
           (py "/en/article/fuel-prices-july")).
  - reflexivity.
  - reflexivity.
  - reflexivity.
Defined.

(** C9 as stated fails on selected candidates.  A link that is an absolute
    URL of another scheme, or with its scheme in capitals, is not passed
    through but prefixed; a relative link that begins with the letters
    "http" is not prefixed, and what is requested is not an absolute URL. *)
Lemma C9_counterexample :
  (latest_article [ftp_card]
   = Some (candidate_with_link (py "ftp://wam.ae/feed/fuel.html"))
   ∧ is_absolute_url (py "ftp://wam.ae/feed/fuel.html") = true
   ∧ article_url_of (candidate_with_link (py "ftp://wam.ae/feed/fuel.html"))
     = Ok (py "https://wam.aeftp://wam.ae/feed/fuel.html"))
  ∧ (latest_article [capitals_card]
     = Some (candidate_with_link (py "HTTPS://WAM.AE/en/article/fuel"))
     ∧ is_absolute_url (py "HTTPS://WAM.AE/en/article/fuel") = true
     ∧ article_url_of (candidate_with_link (py "HTTPS://WAM.AE/en/article/fuel"))
       = Ok (py "https://wam.aeHTTPS://WAM.AE/en/article/fuel"))
  ∧ (latest_article [http_path_card]
     = Some (candidate_with_link (py "http-archive/fuel.html"))
     ∧ is_absolute_url (py "http-archive/fuel.html") = false
     ∧ article_url_of (candidate_with_link (py "http-archive/fuel.html"))
       = Ok (py "http-archive/fuel.html")).
Proof. repeat split; reflexivity. Qed.

(** ** The claims on the publisher and the orchestrator *)

Lemma scrape_Some w r :
  (scrape_wam_for_fuel_prices w).1 = Some r →
  ∃ text, extract_fuel_prices (utcnow w) text = Some r.
Proof.
  unfold scrape_wam_for_fuel_prices, scrape_body.
  destruct (raise_for_status (http_get w WAM_FUEL_PRICES_URL)) as [html|]; [|done].
  destruct (is_nil (select_cards w html)); [done|].
  destruct (latest_article (select_cards w html)) as [latest|]; [|done].
  destruct (article_url_of latest) as [url|]; [|done].
  destruct (raise_for_status (http_get w url)) as [page|]; [|done].
  destruct (select_article_body w page) as [ps|]; [|done].
  simpl. intros H. by exists (join_space ps).
Qed.

Lemma scrape_log_gets w : forallb is_get (scrape_wam_for_fuel_prices w).2 = true.
Proof.
  unfold scrape_wam_for_fuel_prices, scrape_body.
  destruct (raise_for_status (http_get w WAM_FUEL_PRICES_URL)) as [html|]; [|done].
  destruct (is_nil (select_cards w html)); [done|].
  destruct (latest_article (select_cards w html)) as [latest|]; [|done].
  destruct (article_url_of latest) as [url|]; [|done].
  destruct (raise_for_status (http_get w url)) as [page|]; [|done].
  by destruct (select_article_body w page).
Qed.

(** C3.  [extract_fuel_prices] returns a report exactly when the price map
    it extracted is not empty, the report carrying that map, and [None] when
    the map is empty.  The publisher given no report fails without a
    request, and a run without a report fails having made no POST. *)
Theorem C3_report_iff_prices now text w :
  (extract_fuel_prices now text = None ↔ extract_prices text = ∅)
  ∧ (∀ r, extract_fuel_prices now text = Some r ↔
          extract_prices text ≠ ∅
          ∧ r = {| prices := extract_prices text; date := now;
                   source := py "WAM (Emirates News Agency)" |})
  ∧ send_prices_to_tripxl w None = (false, [])
  ∧ ((scrape_wam_for_fuel_prices w).1 = None →
     (run_scraper w).1 = false ∧ forallb is_get (run_scraper w).2 = true).
Proof.
  split; [|split; [|split]].
  - unfold extract_fuel_prices. case_bool_decide as Hne; [|done].
    split; [done | by intros He].
  - intros r. apply extract_fuel_prices_Some.
  - done.
  - intros Hnone. pose proof (scrape_log_gets w) as Hlog.
    unfold run_scraper.
    destruct (scrape_wam_for_fuel_prices w) as [pd log]. simpl in *.
    by subst pd.
Qed.

Lemma run_scraper_success w :
  (run_scraper w).1 =
    match (scrape_wam_for_fuel_prices w).1 with
    | Some r =>
        match http_post w (TRIPXL_API_URL w) r with
        | Failed => false
        | Response status_code _ =>
            negb ((400 <=? status_code) && (status_code <? 600))
        end
    | None => false
    end.
Proof.
  unfold run_scraper.
  destruct (scrape_wam_for_fuel_prices w) as [[r|] log]; [|done]. simpl.
  destruct (http_post w (TRIPXL_API_URL w) r) as [|st txt]; [done|]. simpl.
  by destruct ((400 <=? st) && (st <? 600)).
Qed.

(** C4, as amended.  The exit status is 0 exactly when a report, whose price
    map is then not empty, was extracted and the POST returned a response
    whose status is not in 400..599; it is 1 in every other case and never
    anything else.  In particular a 2xx response to the POST of a report
    gives 0. *)
Theorem C4_exit_status w :
  (exit_status w = 0 ↔
     ∃ r status_code text,
       (scrape_wam_for_fuel_prices w).1 = Some r ∧ prices r ≠ ∅
       ∧ http_post w (TRIPXL_API_URL w) r = Response status_code text
       ∧ ¬ (400 <= status_code < 600))
  ∧ (exit_status w = 0 ∨ exit_status w = 1)
  ∧ (∀ r status_code text,
       (scrape_wam_for_fuel_prices w).1 = Some r →
       http_post w (TRIPXL_API_URL w) r = Response status_code text →
       200 <= status_code < 300 → exit_status w = 0).
Proof.
  unfold exit_status. rewrite run_scraper_success.
  split; [|split].
  - destruct (scrape_wam_for_fuel_prices w).1 as [r|] eqn:Hr.
    + destruct (http_post w (TRIPXL_API_URL w) r) as [|st txt] eqn:Hp.
      * split; [done|]. intros (r' & st & txt & [= <-] & _ & Hp' & _). congruence.
      * destruct (Z.leb_spec 400 st), (Z.ltb_spec st 600); simpl.
        -- split; [done|].
           intros (r' & st' & txt' & [= <-] & _ & Hp' & Hst).
           rewrite Hp in Hp'. injection Hp' as <- <-. lia.
        -- split; [intros _|done]. exists r, st, txt.
           apply scrape_Some in Hr as [text Hr].
           apply extract_fuel_prices_Some in Hr as [Hne ->].
           repeat split; try done. lia.
        -- split; [intros _|done]. exists r, st, txt.
           apply scrape_Some in Hr as [text Hr].
           apply extract_fuel_prices_Some in Hr as [Hne ->].
           repeat split; try done. lia.
        -- lia.
    + split; [done|]. by intros (r & _ & _ & ? & _).
  - destruct (scrape_wam_for_fuel_prices w).1 as [r|]; [|by right].
    destruct (http_post w (TRIPXL_API_URL w) r) as [|st txt]; [by right|].
    destruct (negb _); auto.
  - intros r st txt -> -> Hst.
    destruct (Z.leb_spec 400 st), (Z.ltb_spec st 600); simpl; try done; lia.
Qed.

(** C4 as stated fails: a report is posted, the endpoint answers 304, which
    is not a 2xx status, and the exit status is 0. *)
Lemma C4_counterexample :
  (scrape_wam_for_fuel_prices (sample_world 304)).1 = Some sample_report
  ∧ http_post (sample_world 304) (TRIPXL_API_URL (sample_world 304)) sample_report
    = Response 304 []
  ∧ ¬ (200 <= 304 < 300)
  ∧ exit_status (sample_world 304) = 0.
Proof.
  split; [vm_compute; reflexivity|].
  split; [reflexivity|]. split; [lia|]. vm_compute. reflexivity.
Qed.

(** ** The scenarios of the specification, and the edges the claims meet *)

Example scenario_selection :
  latest_article [announcement_card; unrelated_card]
  = Some {| title := py "fuel prices announced for next month";
            date_text := py "2024-06-30";
            link := Some (py "/en/article/fuel-prices-july") |}
  ∧ candidate_of unrelated_card = None
  ∧ str_ltb (py "2024-06-30") (py "2024-07-01") = true.
Proof. repeat split; reflexivity. Qed.

Example scenario_extraction :
  extract_prices sample_article
  = <["DIESEL"%string := 280 # 100]> (<["PETROL"%string := 272 # 100]> ∅)
  ∧ extract_prices sample_article !! "SUPER"%string = None
  ∧ extract_prices sample_article !! "EPLUS"%string = None.
Proof. repeat split; vm_compute; reflexivity. Qed.

Example scenario_http_500 :
  run_scraper (sample_world 500)
  = (false, [Get WAM_FUEL_PRICES_URL;
             Get (py "https://wam.ae/en/article/fuel-prices-july");
             Post (py "http://localhost:5000/api/fuel-types/update") sample_report])
  ∧ exit_status (sample_world 500) = 1.
Proof. split; vm_compute; reflexivity. Qed.

Example scenario_http_200 : exit_status (sample_world 200) = 0.
Proof. vm_compute. reflexivity. Qed.

(** A price that ends its sentence: the word "2.80." is digits once its dots
    are removed, and [float] rejects it. *)
Example sentence_end_raises :
  find_price (lower (py "Diesel will cost AED 2.80. Motorists"))
             (py "diesel") = Raise ValueError
  ∧ extract_fuel_prices (py "now") (py "Diesel will cost AED 2.80. Motorists")
    = None.
Proof. split; vm_compute; reflexivity. Qed.

(** A zero after the marker is a price, so the second pattern is not tried,
    and it is falsy, so nothing is recorded. *)
Example zero_after_marker :
  find_price (lower (py "Diesel AED 0.00 then 2.50")) (py "diesel")
  = Ok (Some (0 # 100))
  ∧ extract_prices (py "Diesel AED 0.00 then 2.50") !! "DIESEL"%string = None.
Proof. split; vm_compute; reflexivity. Qed.

(** A card whose [a] has no [href] passes the filter and fails at
    [startswith]; the handler turns that into [None]. *)
Example missing_href :
  article_url_of {| title := py "fuel prices set"; date_text := py "1 July";
                    link := None |} = Raise AttributeError.
Proof. reflexivity. Qed.

(** X11.  Equal dates: the earlier card of the listing is the one selected. *)
Lemma latest_article_first_of_ties articles a :
  latest_article articles = Some a →
  ∃ l1 l2, fuel_price_articles articles = l1 ++ a :: l2
    ∧ ∀ b, b ∈ l1 → str_ltb (date_text b) (date_text a) = true.
Proof.
  unfold latest_article. intros Hh.
  pose proof (sort_head (fuel_price_articles articles)) as H.
  rewrite Hh in H. by destruct H as [_ H].
Qed.

(** * Further properties of the code *)

(** ** Where a label is looked for *)

Lemma recorded_label_found tl key v :
  recorded tl key = Some v → str_find key tl ≠ -1.
Proof.
  unfold recorded. intros H Hno. by rewrite (find_price_absent _ _ Hno) in H.
Qed.

Lemma entry_label_occurs text code v :
  extract_prices text !! code = Some v →
  ∃ key, (key, code) ∈ FUEL_TYPE_MAPPING ∧ occurs key (lower text).
Proof.
  intros Hv.
  destruct (mapping_elem code) as [key Hin].
  { apply (extract_prices_dom text). by rewrite Hv. }
  exists key. split; [done|].
  rewrite (extract_prices_lookup _ _ _ Hin) in Hv.
  apply recorded_label_found, str_find_pos in Hv as (pre & post & Hs & _).
  by exists pre, post.
Qed.

(** X1.  A code is a key of the price map only if its label occurs in the
    lower-cased text. *)
Theorem key_needs_label text code :
  code ∈ dom (extract_prices text) →
  ∃ key, (key, code) ∈ FUEL_TYPE_MAPPING ∧ occurs key (lower text).
Proof. intros [v Hv]%elem_of_dom. by apply (entry_label_occurs text code v). Qed.

Lemma key_needs_label_witness :
  ∃ key, (key, "DIESEL"%string) ∈ FUEL_TYPE_MAPPING
         ∧ occurs key (lower (py "Diesel AED 2.80 a litre")).
Proof.
  apply key_needs_label. apply elem_of_dom. exists (280 # 100).
  vm_compute. reflexivity.
Defined.

(** X2.  A text in which none of the four labels occurs gives no report. *)
Theorem no_label_no_report now text :
  (∀ key code, (key, code) ∈ FUEL_TYPE_MAPPING → ¬ occurs key (lower text)) →
  extract_fuel_prices now text = None.
Proof.
  intros Hno. destruct (extract_fuel_prices now text) as [r|] eqn:Hr; [|done].
  apply extract_fuel_prices_Some in Hr as [Hne _]. exfalso. apply Hne.
  apply map_eq. intros code. rewrite lookup_empty.
  destruct (extract_prices text !! code) as [v|] eqn:Hv; [|done].
  destruct (entry_label_occurs text code v Hv) as (key & Hin & Hocc).
  by destruct (Hno key code Hin).
Qed.

Lemma no_label_no_report_witness :
  extract_fuel_prices (py "2024-07-01") (py "Petrol to cost AED 2.72") = None.
Proof.
  apply no_label_no_report. intros key code Hin.
  apply str_find_none.
  apply elem_of_cons in Hin as [Heq|Hin]; [by injection Heq as -> ->|].
  apply elem_of_cons in Hin as [Heq|Hin]; [by injection Heq as -> ->|].
  apply elem_of_cons in Hin as [Heq|Hin]; [by injection Heq as -> ->|].
  apply elem_of_cons in Hin as [Heq|Hin]; [by injection Heq as -> ->|].
  by apply elem_of_nil in Hin.
Defined.

(** ** Case *)

Lemma lower_char_idem c : lower_char (lower_char c) = lower_char c.
Proof. by destruct c as [[] [] [] [] [] [] [] []]. Qed.

Lemma lower_idem s : lower (lower s) = lower s.
Proof.
  unfold lower. rewrite map_map. apply map_ext. intros c. apply lower_char_idem.
Qed.

(** X3.  The extractor sees its text only through [lower]: two texts that differ
    in case alone, a text and its lower-casing among them, give the same
    result. *)
Theorem extraction_ignores_case now text1 text2 :
  lower text1 = lower text2 →
  extract_fuel_prices now text1 = extract_fuel_prices now text2
  ∧ extract_fuel_prices now (lower text1) = extract_fuel_prices now text2.
Proof.
  intros H. unfold extract_fuel_prices, extract_prices.
  by rewrite lower_idem, H.
Qed.

Lemma extraction_ignores_case_witness :
  extract_fuel_prices (py "2024-07-01") (py "DIESEL: AED 2.80 per litre")
  = extract_fuel_prices (py "2024-07-01") (py "Diesel: Aed 2.80 per Litre")
  ∧ extract_fuel_prices (py "2024-07-01") (lower (py "DIESEL: AED 2.80 per litre"))
    = extract_fuel_prices (py "2024-07-01") (py "Diesel: Aed 2.80 per Litre").
Proof. apply extraction_ignores_case. reflexivity. Defined.

(** ** The window *)

Lemma startswith_app_l p : ∀ s t, startswith p s = true → startswith p (s ++ t) = true.
Proof.
  intros s t [post ->]%startswith_spec. apply startswith_spec.
  exists (post ++ t). by rewrite app_assoc.
Qed.

Lemma startswith_app_short p : ∀ s t,
  startswith p (s ++ t) = true → (length p <= length s)%nat →
  startswith p s = true.
Proof.
  induction p as [|a p IH]; intros [|b s] t; simpl; try done; [lia|].
  intros [Hab Hp]%andb_prop Hlen. rewrite Hab. simpl.
  apply (IH s t Hp). lia.
Qed.

(** An occurrence found in [s] is the one found in [s ++ t]. *)
Lemma str_find_app sub s t :
  str_find sub s ≠ -1 → str_find sub (s ++ t) = str_find sub s.
Proof.
  induction s as [|a s IH]; simpl.
  - destruct (startswith sub []) eqn:Hs; [|done]. intros _.
    destruct sub; [|done]. by destruct t.
  - destruct (startswith sub (a :: s)) eqn:Hs.
    + intros _. pose proof (startswith_app_l sub (a :: s) t Hs) as Hst.
      simpl in Hst. by rewrite Hst.
    + destruct (Z.eqb_spec (str_find sub s) (-1)) as [|Hr]; [done|]. intros _.
      rewrite (IH Hr).
      destruct (startswith sub (a :: s ++ t)) eqn:Hst.
      * destruct (str_find_pos _ _ Hr) as (pre & post & Heq & _).
        rewrite (startswith_app_short sub (a :: s) t Hst) in Hs; [done|].
        rewrite Heq. simpl. rewrite !length_app. lia.
      * by destruct (Z.eqb_spec (str_find sub s) (-1)).
Qed.

Lemma slice_app (s t : pystr) i j :
  0 <= i → i <= j → j <= Z.of_nat (length s) →
  slice (s ++ t) i j = slice s i j.
Proof.
  intros Hi Hij Hj. rewrite !slice_nonneg by done.
  rewrite drop_app_le by lia. apply take_app_le. rewrite length_drop. lia.
Qed.

Lemma lower_length s : length (lower s) = length s.
Proof. apply length_map. Qed.

Lemma lower_app s t : lower (s ++ t) = lower s ++ lower t.
Proof. apply map_app. Qed.

Lemma find_price_app tl extra key :
  str_find key tl ≠ -1 →
  str_find key tl + 100 <= Z.of_nat (length tl) →
  find_price (tl ++ extra) key = find_price tl key.
Proof.
  intros Hpos Hlen. pose proof (str_find_ge key tl).
  unfold find_price. rewrite (str_find_app _ _ _ Hpos).
  by rewrite slice_app by lia.
Qed.

(** X4.  The text after the 100-character window of a label does not count: when
    the window lies within the text, whatever is appended to the text leaves
    the label's entry as it is. *)
Theorem text_after_window_ignored text extra key code :
  (key, code) ∈ FUEL_TYPE_MAPPING →
  str_find key (lower text) ≠ -1 →
  str_find key (lower text) + 100 <= Z.of_nat (length text) →
  extract_prices (text ++ extra) !! code = extract_prices text !! code.
Proof.
  intros Hin Hpos Hlen.
  rewrite !(extract_prices_lookup _ _ _ Hin). unfold recorded.
  rewrite lower_app, find_price_app; [done..|]. by rewrite lower_length.
Qed.

Lemma text_after_window_ignored_witness :
  let text := py "Diesel will cost AED 2.80 per litre from the first day of the month, the committee said on Sunday evening" in
  extract_prices (text ++ py " ... diesel AED 9.99") !! "DIESEL"%string
  = extract_prices text !! "DIESEL"%string.
Proof.
  apply (text_after_window_ignored _ _ (py "diesel")).
  - do 3 apply list_elem_of_further. apply list_elem_of_here.
  - intros H. vm_compute in H. discriminate H.
  - vm_compute. intros H. discriminate H.
Defined.

Lemma findall_skip_non_digits stem s :
  forallb (λ c, negb (is_decimal c)) stem = true →
  findall_go 0 (stem ++ s) = findall_go 0 s.
Proof.
  induction stem as [|a stem IH]; [done|]. simpl.
  intros [Ha Hs]%andb_prop. apply negb_true_iff in Ha.
  unfold match_at. simpl. rewrite Ha. by apply IH.
Qed.

Lemma match_at_here d1 c d2 rest :
  d1 ≠ [] → forallb is_decimal d1 = true → is_sep c = true →
  d2 ≠ [] → forallb is_decimal d2 = true →
  match rest with [] => True | x :: _ => is_decimal x = false end →
  match_at (d1 ++ c :: d2 ++ rest) = Some (d1 ++ c :: d2).
Proof.
  intros Hn1 Hd1 Hc Hn2 Hd2 Hrest. unfold match_at.
  rewrite span_digits_app; [|done|by apply sep_not_decimal].
  destruct d1 as [|a d1]; [done|]. rewrite Hc.
  rewrite span_digits_app by done. by destruct d2.
Qed.

(** X5.  The window starts at the label, so the digits that end a label are
    read by the second pattern.  When the label, in the text, is followed at
    once by a separator and digits, and its window has no "aed", the entry
    is the number made of the label's own digits and the digits after the
    separator: "Super 98.5" records 98.5 for SUPER. *)
Theorem label_digits_feed_fallback text key code stem d1 c d2 rest :
  (key, code) ∈ FUEL_TYPE_MAPPING →
  key = stem ++ d1 →
  forallb (λ x, negb (is_decimal x)) stem = true →
  d1 ≠ [] → forallb is_decimal d1 = true →
  str_find key (lower text) ≠ -1 →
  window (lower text) key = key ++ c :: d2 ++ rest →
  is_sep c = true →
  d2 ≠ [] → forallb is_decimal d2 = true →
  match rest with [] => True | x :: _ => is_decimal x = false end →
  str_in (py "aed") (window (lower text) key) = false →
  extract_prices text !! code
  = (if Qnum (decimal d1 d2) =? 0 then None else Some (decimal d1 d2)).
Proof.
  intros Hin -> Hstem Hn1 Hd1 Hpos Hwin Hc Hn2 Hd2 Hrest Haed.
  assert (∃ ms, re_findall (window (lower text) (stem ++ d1))
                = (d1 ++ c :: d2) :: ms) as [ms Hm].
  { rewrite Hwin. unfold re_findall. rewrite <- app_assoc.
    rewrite findall_skip_non_digits by done.
    destruct d1 as [|a d1]; [done|].
    change ((a :: d1) ++ c :: d2 ++ rest) with (a :: (d1 ++ c :: d2 ++ rest)).
    cbn [findall_go].
    change (a :: d1 ++ c :: d2 ++ rest) with ((a :: d1) ++ c :: d2 ++ rest).
    rewrite (match_at_here (a :: d1) c d2 rest) by done. by eexists. }
  pose proof (match_float d1 c d2 Hn1 Hd1 Hd2 Hc) as Hf.
  rewrite (extract_prices_lookup _ _ _ Hin). unfold recorded.
  rewrite find_price_window by done.
  rewrite (aed_price_no_marker _ Haed), bind_Ok.
  unfold regex_price. rewrite Hm, Hf, bind_Ok. unfold truthy.
  by destruct (Qnum (decimal d1 d2) =? 0).
Qed.

Lemma label_digits_feed_fallback_witness :
  extract_prices (py "The Super 98.5 blend") !! "SUPER"%string
  = (if Qnum (decimal (py "98") (py "5")) =? 0 then None
     else Some (decimal (py "98") (py "5"))).
Proof.
  apply (label_digits_feed_fallback (py "The Super 98.5 blend")
           (py "super 98") "SUPER"%string (py "super ") (py "98")
           "."%char (py "5") (py " blend")).
  - apply list_elem_of_further. apply list_elem_of_here.
  - reflexivity.
  - reflexivity.
  - intros H. discriminate H.
  - reflexivity.
  - intros H. vm_compute in H. discriminate H.
  - reflexivity.
  - reflexivity.
  - intros H. discriminate H.
  - reflexivity.
  - reflexivity.
  - reflexivity.
Defined.

(** ** Exceptions and the two patterns *)

Lemma py_float_raise w e : py_float w = Raise e → e = ValueError.
Proof.
  unfold py_float. destruct (span_digits w) as [ip r].
  destruct r as [|c fp].
  - destruct (is_nil ip); [by intros [= <-] | done].
  - destruct (_ && _); [done | by intros [= <-]].
Qed.

Lemma first_number_raise ws e : first_number ws = Raise e → e = ValueError.
Proof.
  induction ws as [|w ws IH]; [done|]. simpl.
  destruct (isdigit (replace "." [] w)); [|done].
  destruct (py_float w) as [p|e'] eqn:Hp; [done|].
  intros [= <-]. by apply py_float_raise in Hp.
Qed.

Lemma regex_price_ok win price : ∃ r, regex_price win price = Ok r.
Proof.
  destruct price as [p|]; [by eexists|].
  destruct (re_findall win) as [|m ms] eqn:Hm.
  - unfold regex_price. rewrite Hm. by eexists.
  - destruct (regex_price_match _ _ _ Hm) as (d1 & c & d2 & _ & _ & _ & _ & _ & Hr).
    by eexists.
Qed.

(** X6.  The only exception of an iteration is the [ValueError] of [float] in the
    primary pattern: the label was found and its window has the marker.  The
    second pattern never raises. *)
Theorem exception_only_after_marker tl key e :
  find_price tl key = Raise e →
  e = ValueError
  ∧ str_find key tl ≠ -1
  ∧ str_in (py "aed") (window tl key) = true.
Proof.
  intros H.
  destruct (Z.eq_dec (str_find key tl) (-1)) as [Hno|Hpos].
  { by rewrite (find_price_absent _ _ Hno) in H. }
  rewrite (find_price_window _ _ Hpos) in H.
  destruct (aed_price (window tl key)) as [price|e'] eqn:Ha.
  - rewrite bind_Ok in H.
    destruct (regex_price_ok (window tl key) price) as [r Hr]. congruence.
  - injection H as <-. unfold aed_price in Ha.
    destruct (str_in (py "aed") (window tl key)); [|done].
    by apply first_number_raise in Ha.
Qed.

Lemma exception_only_after_marker_witness :
  ValueError = ValueError
  ∧ str_find (py "diesel") (py "diesel will cost aed 2.80. motorists") ≠ -1
  ∧ str_in (py "aed")
      (window (py "diesel will cost aed 2.80. motorists") (py "diesel")) = true.
Proof. apply exception_only_after_marker. reflexivity. Defined.

Lemma first_number_none ws :
  Forall (λ word, isdigit (replace "." [] word) = false) ws →
  first_number ws = Ok None.
Proof.
  induction 1 as [|w ws Hw _ IH]; [done|]. simpl. by rewrite Hw.
Qed.

(** X7.  A marker with no number among the words of the 7 characters after it
    does not stop the search: the entry is what the second pattern gives on
    the whole window. *)
Theorem marker_without_number_falls_back text key code :
  (key, code) ∈ FUEL_TYPE_MAPPING →
  str_find key (lower text) ≠ -1 →
  str_in (py "aed") (window (lower text) key) = true →
  Forall (λ word, isdigit (replace "." [] word) = false)
    (split (strip (slice (window (lower text) key)
                     (str_find (py "aed") (window (lower text) key) + 3)
                     (str_find (py "aed") (window (lower text) key) + 10)))) →
  extract_prices text !! code =
    match re_findall (window (lower text) key) with
    | [] => None
    | m :: _ =>
        match py_float (replace "," (py ".") m) with
        | Ok v => if Qnum v =? 0 then None else Some v
        | Raise _ => None
        end
    end.
Proof.
  intros Hin Hpos Haed Hwords.
  rewrite (extract_prices_lookup _ _ _ Hin). unfold recorded.
  rewrite find_price_window by done.
  unfold aed_price at 1. rewrite Haed, (first_number_none _ Hwords), bind_Ok.
  destruct (re_findall (window (lower text) key)) as [|m ms] eqn:Hm.
  - unfold regex_price. by rewrite Hm.
  - destruct (regex_price_match _ _ _ Hm)
      as (d1 & c & d2 & _ & _ & _ & _ & Hf & Hr).
    rewrite Hr, Hf. unfold truthy. by destruct (Qnum (decimal d1 d2) =? 0).
Qed.

Lemma marker_without_number_falls_back_witness :
  extract_prices (py "Diesel (AED, per litre): 2,80") !! "DIESEL"%string
  = Some (280 # 100).
Proof.
  apply (marker_without_number_falls_back
           (py "Diesel (AED, per litre): 2,80") (py "diesel") "DIESEL"%string).
  - do 3 apply list_elem_of_further. apply list_elem_of_here.
  - intros H. vm_compute in H. discriminate H.
  - reflexivity.
  - vm_compute. repeat constructor.
Defined.

(** ** A price after the marker is final *)

(** X8.  When the primary pattern yields a number, the second pattern is not
    tried: the entry is that number, or nothing when the number is zero,
    whatever else the window holds. *)
Theorem marker_price_is_final text key code v :
  (key, code) ∈ FUEL_TYPE_MAPPING →
  str_find key (lower text) ≠ -1 →
  aed_price (window (lower text) key) = Ok (Some v) →
  extract_prices text !! code = (if Qnum v =? 0 then None else Some v).
Proof.
  intros Hin Hpos Ha.
  rewrite (extract_prices_lookup _ _ _ Hin). unfold recorded.
  rewrite find_price_window, Ha, bind_Ok by done.
  simpl. by destruct (Qnum v =? 0).
Qed.

Lemma marker_price_is_final_witness :
  extract_prices (py "Diesel AED 0.00 then 2.50") !! "DIESEL"%string
  = (if Qnum (0 # 100) =? 0 then None else Some (0 # 100)).
Proof.
  apply (marker_price_is_final _ (py "diesel")).
  - do 3 apply list_elem_of_further. apply list_elem_of_here.
  - intros H. vm_compute in H. discriminate H.
  - reflexivity.
Defined.

(** ** The size of a price read after the marker *)

Lemma lstrip_length s : (length (lstrip s) <= length s)%nat.
Proof.
  induction s as [|c s IH]; [done|]. simpl.
  destruct (is_space c); simpl; lia.
Qed.

Lemma rstrip_length s : (length (rstrip s) <= length s)%nat.
Proof.
  induction s as [|c s IH]; [done|]. simpl.
  destruct (rstrip s) as [|a r]; [destruct (is_space c)|]; simpl in *; lia.
Qed.

Lemma strip_length s : (length (strip s) <= length s)%nat.
Proof.
  unfold strip. pose proof (rstrip_length (lstrip s)).
  pose proof (lstrip_length s). lia.
Qed.

Lemma split_go_length s : ∀ w x,
  x ∈ split_go w s → (length x <= length w + length s)%nat.
Proof.
  induction s as [|c s IH]; intros w x; simpl.
  - destruct w; simpl; [by intros ?%elem_of_nil|].
    intros ->%list_elem_of_singleton. simpl. lia.
  - destruct (is_space c).
    + intros [Hx|Hx]%elem_of_app.
      * destruct w; simpl in Hx; [by apply elem_of_nil in Hx|].
        apply list_elem_of_singleton in Hx as ->. simpl. lia.
      * apply IH in Hx. simpl in Hx. lia.
    + intros Hx%IH. rewrite length_app in Hx. simpl in Hx. lia.
Qed.

Lemma slice_length (s : pystr) i j :
  0 <= i → i <= j → (length (slice s i j) <= Z.to_nat (j - i))%nat.
Proof.
  intros Hi Hj. rewrite slice_nonneg by done. rewrite length_take. lia.
Qed.

Lemma first_number_Some ws v :
  first_number ws = Ok (Some v) → ∃ word, word ∈ ws ∧ py_float word = Ok v.
Proof.
  induction ws as [|w ws IH]; [done|]. simpl.
  destruct (isdigit (replace "." [] w)).
  - destruct (py_float w) as [p|e] eqn:Hp; [|done]. intros [= <-].
    exists w. split; [apply list_elem_of_here | done].
  - intros (word & Hin & Hf)%IH. exists word.
    split; [by apply list_elem_of_further | done].
Qed.

Lemma fold_digits_lt d : ∀ acc,
  0 <= acc → forallb is_decimal d = true →
  fold_left (λ acc c, 10 * acc + digit_value c) d acc
  < (acc + 1) * 10 ^ Z.of_nat (length d).
Proof.
  induction d as [|c d IH]; intros acc Ha Hd.
  - simpl. lia.
  - simpl fold_left. simpl in Hd. apply andb_prop in Hd as [Hc Hd].
    assert (0 <= digit_value c <= 9) as Hv.
    { unfold is_decimal, between in Hc. unfold digit_value. lia. }
    specialize (IH (10 * acc + digit_value c) ltac:(lia) Hd).
    replace (Z.of_nat (length (c :: d))) with (Z.succ (Z.of_nat (length d)))
      by (simpl length; lia).
    rewrite Z.pow_succ_r by lia.
    assert (0 < 10 ^ Z.of_nat (length d)) by (apply Z.pow_pos_nonneg; lia).
    nia.
Qed.

Lemma digits_value_lt d :
  forallb is_decimal d = true → digits_value d < 10 ^ Z.of_nat (length d).
Proof.
  intros Hd. pose proof (fold_digits_lt d 0 ltac:(lia) Hd) as H.
  unfold digits_value. lia.
Qed.

Lemma py_float_lt w v : py_float w = Ok v → Qnum v < 10 ^ Z.of_nat (length w).
Proof.
  intros (ip & dot & fp & -> & _ & Hip & Hfp & _ & ->)%py_float_Ok.
  simpl. assert (forallb is_decimal (ip ++ fp) = true) as Hd
    by (by rewrite forallb_app, Hip, Hfp).
  apply digits_value_lt in Hd.
  eapply Z.lt_le_trans; [exact Hd|].
  apply Z.pow_le_mono_r; [lia|]. rewrite !length_app. lia.
Qed.

(** X9.  A price read after the marker comes from a word of at most 7
    characters: it is not negative and is below ten million. *)
Theorem aed_price_bounded segment v :
  aed_price segment = Ok (Some v) → (0 <= v)%Q ∧ (v < 10000000)%Q.
Proof.
  unfold aed_price. destruct (str_in (py "aed") segment); [|done].
  intros (word & Hin & Hf)%first_number_Some.
  pose proof (str_find_ge (py "aed") segment) as Hge.
  set (pos := str_find (py "aed") segment) in *.
  assert (length word <= 7)%nat as Hlen.
  { apply split_go_length in Hin. simpl in Hin.
    pose proof (strip_length (slice segment (pos + 3) (pos + 10))).
    pose proof (slice_length segment (pos + 3) (pos + 10)). lia. }
  pose proof (py_float_nonneg _ _ Hf) as H0.
  pose proof (py_float_lt _ _ Hf) as Hlt.
  assert (10 ^ Z.of_nat (length word) <= 10 ^ 7)
    by (apply Z.pow_le_mono_r; lia).
  unfold Qle, Qlt. simpl. split; [lia|].
  change (10 ^ 7) with 10000000 in *. nia.
Qed.

Lemma aed_price_bounded_witness :
  (0 <= 9999999 # 1)%Q ∧ (9999999 # 1 < 10000000)%Q.
Proof.
  apply (aed_price_bounded (py "diesel aed9999999 dirhams")). reflexivity.
Defined.

(** ** The sort of the candidates *)

Lemma insert_desc_perm x l : insert_desc x l ≡ₚ x :: l.
Proof.
  induction l as [|y l IH]; [done|]. simpl.
  destruct (str_ltb (date_text x) (date_text y)); [|done].
  rewrite IH. apply Permutation_swap.
Qed.

Lemma insert_desc_sorted x l :
  StronglySorted date_ge l → StronglySorted date_ge (insert_desc x l).
Proof.
  induction l as [|y l IH]; intros Hs; simpl.
  - by repeat constructor.
  - apply StronglySorted_cons in Hs as [Hy Hs].
    destruct (str_ltb (date_text x) (date_text y)) eqn:Hxy.
    + apply StronglySorted_cons. split; [|by apply IH].
      rewrite insert_desc_perm. constructor; [|done].
      by apply str_ltb_leb.
    + apply StronglySorted_cons. split; [|by apply StronglySorted_cons].
      assert (date_ge x y) as Hge by (unfold date_ge, str_leb; by rewrite Hxy).
      constructor; [done|].
      eapply Forall_impl; [exact Hy|]. intros z Hz.
      unfold date_ge in *. by apply (str_leb_trans _ (date_text y)).
Qed.

Lemma insert_desc_filter d x l :
  filter (λ c, date_text c = d) (insert_desc x l)
  = filter (λ c, date_text c = d) (x :: l).
Proof.
  induction l as [|y l IH]; [done|]. simpl.
  destruct (str_ltb (date_text x) (date_text y)) eqn:Hxy; [|done].
  rewrite (filter_cons _ y), IH, !(filter_cons _ x), (filter_cons _ y).
  destruct (decide (date_text y = d)) as [Hy|Hy],
    (decide (date_text x = d)) as [Hx|Hx]; try done.
  rewrite Hx, Hy, str_ltb_irrefl in Hxy. done.
Qed.

Lemma sort_by_date_desc_perm l : sort_by_date_desc l ≡ₚ l.
Proof.
  induction l as [|x l IH]; [done|]. simpl. by rewrite insert_desc_perm, IH.
Qed.

(** X10.  The sort keeps the candidates, puts them in non-increasing order of
    date text, and leaves those of one same date text in the order of the
    listing. *)
Theorem sort_by_date_desc_stable l :
  sort_by_date_desc l ≡ₚ l
  ∧ StronglySorted date_ge (sort_by_date_desc l)
  ∧ ∀ d, filter (λ c, date_text c = d) (sort_by_date_desc l)
         = filter (λ c, date_text c = d) l.
Proof.
  induction l as [|x l (Hp & Hs & Hf)]; [by repeat constructor|].
  simpl. split; [|split].
  - by rewrite insert_desc_perm, Hp.
  - by apply insert_desc_sorted.
  - intros d. rewrite insert_desc_filter, !(filter_cons _ x), Hf. done.
Qed.

(** X12.  A card that is not a candidate, for a missing element or for its title,
    has no effect on the selection, wherever it stands in the listing. *)
Theorem non_candidate_ignored before article after :
  candidate_of article = None →
  latest_article (before ++ article :: after) = latest_article (before ++ after).
Proof.
  intros Hc. unfold latest_article, fuel_price_articles.
  rewrite !omap_app. simpl. by rewrite Hc.
Qed.

Lemma non_candidate_ignored_witness :
  latest_article ([announcement_card] ++ unrelated_card :: [no_href_card])
  = latest_article ([announcement_card] ++ [no_href_card]).
Proof. apply non_candidate_ignored. reflexivity. Defined.

Lemma latest_article_first_of_ties_witness :
  ∃ l1 l2,
    fuel_price_articles [unrelated_card; announcement_card; no_href_card;
                         {| title_elem := Some (py "Fuel price committee sets rates");
                            date_elem := Some (py "2024-07-31");
                            link_elem := Some (Some (py "/en/article/second")) |}]
    = l1 ++ {| title := py "petrol prices set for august";
               date_text := py "2024-07-31"; link := None |} :: l2
    ∧ ∀ b, b ∈ l1 →
        str_ltb (date_text b)
          (date_text {| title := py "petrol prices set for august";
                        date_text := py "2024-07-31"; link := None |}) = true.
Proof. apply latest_article_first_of_ties. reflexivity. Defined.

(** ** The selection and the order of the listing *)

Lemma ord_inj x y : ord x = ord y → x = y.
Proof.
  unfold ord. intros H%(inj Z.of_N).
  rewrite <- (ascii_N_embedding x), <- (ascii_N_embedding y). by rewrite H.
Qed.

Lemma str_leb_antisym a : ∀ b,
  str_leb a b = true → str_leb b a = true → a = b.
Proof.
  unfold str_leb. induction a as [|x a IH]; intros [|y b]; simpl; try done.
  rewrite !negb_true_iff, !orb_false_iff, !andb_false_iff.
  intros [H1 H1'] [H2 H2'].
  apply Z.ltb_ge in H1, H2.
  assert (ord x = ord y) as Hxy by lia.
  rewrite Hxy, Z.eqb_refl in H1', H2'.
  destruct H1' as [|H1']; [done|]. destruct H2' as [|H2']; [done|].
  f_equal; [by apply ord_inj|].
  apply IH; by apply negb_true_iff.
Qed.

Lemma latest_article_elem articles a :
  latest_article articles = Some a →
  a ∈ fuel_price_articles articles
  ∧ ∀ b, b ∈ fuel_price_articles articles →
         str_leb (date_text b) (date_text a) = true.
Proof.
  unfold latest_article. intros Hh.
  pose proof (sort_head (fuel_price_articles articles)) as H.
  rewrite Hh in H. destruct H as (Hmax & l1 & l2 & Hl & _).
  split; [|done]. rewrite Hl. apply elem_of_app. right. apply list_elem_of_here.
Qed.

(** X13.  When the candidates have pairwise different date texts, the selection
    does not depend on the order of the cards in the listing. *)
Theorem selection_order_independent articles1 articles2 :
  articles1 ≡ₚ articles2 →
  NoDup (date_text <$> fuel_price_articles articles1) →
  latest_article articles1 = latest_article articles2.
Proof.
  intros Hp Hnd.
  assert (fuel_price_articles articles1 ≡ₚ fuel_price_articles articles2) as Hc.
  { unfold fuel_price_articles. by rewrite Hp. }
  destruct (latest_article articles1) as [a1|] eqn:H1,
           (latest_article articles2) as [a2|] eqn:H2.
  - apply latest_article_elem in H1 as [Hin1 Hmax1].
    apply latest_article_elem in H2 as [Hin2 Hmax2].
    rewrite <- Hc in Hin2.
    assert (date_text a1 = date_text a2) as Hd.
    { apply str_leb_antisym; [apply Hmax2; by rewrite <- Hc | by apply Hmax1]. }
    f_equal.
    apply list_elem_of_lookup in Hin1 as [i Hi], Hin2 as [j Hj].
    assert (i = j) as ->; [|congruence].
    apply (NoDup_lookup _ i j (date_text a1) Hnd);
      rewrite list_lookup_fmap; [by rewrite Hi | by rewrite Hj, Hd].
  - apply latest_article_elem in H1 as [Hin1 _].
    unfold latest_article in H2. apply head_None in H2.
    pose proof (sort_by_date_desc_perm (fuel_price_articles articles2)) as Hs.
    rewrite H2 in Hs. rewrite Hc, <- Hs in Hin1. by apply elem_of_nil in Hin1.
  - apply latest_article_elem in H2 as [Hin2 _].
    unfold latest_article in H1. apply head_None in H1.
    pose proof (sort_by_date_desc_perm (fuel_price_articles articles1)) as Hs.
    rewrite H1 in Hs. rewrite <- Hc, <- Hs in Hin2. by apply elem_of_nil in Hin2.
  - done.
Qed.

Lemma selection_order_independent_witness :
  latest_article [announcement_card; unrelated_card; no_href_card]
  = latest_article [no_href_card; unrelated_card; announcement_card].
Proof.
  apply selection_order_independent.
  - change [no_href_card; unrelated_card; announcement_card]
      with (reverse [announcement_card; unrelated_card; no_href_card]).
    symmetry. apply reverse_Permutation.
  - vm_compute. apply NoDup_cons. split.
    + intros [H|H]%elem_of_cons; [discriminate H | by apply elem_of_nil in H].
    + apply NoDup_cons. split; [by intros H%elem_of_nil | apply NoDup_nil_2].
Defined.

(** ** The stages of a run *)

Lemma latest_article_None articles :
  (∀ article, article ∈ articles → candidate_of article = None) →
  latest_article articles = None.
Proof.
  intros Hall. unfold latest_article, fuel_price_articles.
  assert (omap candidate_of articles = []) as ->; [|done].
  induction articles as [|a l IH]; [done|]. simpl.
  rewrite (Hall a) by apply list_elem_of_here.
  apply IH. intros b Hb. apply Hall. by apply list_elem_of_further.
Qed.

Lemma scrape_after_selection w html latest :
  raise_for_status (http_get w WAM_FUEL_PRICES_URL) = Ok html →
  latest_article (select_cards w html) = Some latest →
  scrape_body w =
    match article_url_of latest with
    | Raise e => (Raise e, [Get WAM_FUEL_PRICES_URL])
    | Ok article_url =>
        let log2 := [Get WAM_FUEL_PRICES_URL; Get article_url] in
        match raise_for_status (http_get w article_url) with
        | Raise e => (Raise e, log2)
        | Ok article_html =>
            match select_article_body w article_html with
            | None => (Ok None, log2)
            | Some paragraphs =>
                (Ok (extract_fuel_prices (utcnow w) (join_space paragraphs)),
                 log2)
            end
        end
    end.
Proof.
  intros Hget Hl. unfold scrape_body. rewrite Hget.
  destruct (select_cards w html) as [|c cs] eqn:Hc; [done|].
  simpl is_nil. cbv iota. by rewrite Hl.
Qed.

(** X14.  When the request for the listing fails, by an exception of the client or
    by a 4xx or 5xx status, the run makes no other request and fails. *)
Theorem listing_failure_ends_run w :
  match http_get w WAM_FUEL_PRICES_URL with
  | Failed => True
  | Response status_code _ => 400 <= status_code < 600
  end →
  run_scraper w = (false, [Get WAM_FUEL_PRICES_URL]) ∧ exit_status w = 1.
Proof.
  intros H.
  assert (run_scraper w = (false, [Get WAM_FUEL_PRICES_URL])) as Hrun.
  { unfold run_scraper, scrape_wam_for_fuel_prices, scrape_body, raise_for_status.
    destruct (http_get w WAM_FUEL_PRICES_URL) as [|st txt]; [done|].
    destruct (Z.leb_spec 400 st), (Z.ltb_spec st 600); simpl; try done; lia. }
  split; [done|]. unfold exit_status. by rewrite Hrun.
Qed.

Lemma listing_failure_ends_run_witness :
  let w := world_of (Response 503 []) Failed [announcement_card] None 200 in
  run_scraper w = (false, [Get WAM_FUEL_PRICES_URL]) ∧ exit_status w = 1.
Proof. apply listing_failure_ends_run. simpl. lia. Defined.

(** X15.  When no card of the listing is a candidate, an empty listing included,
    the run stops after the request for the listing and fails. *)
Theorem no_announcement_ends_run w html :
  raise_for_status (http_get w WAM_FUEL_PRICES_URL) = Ok html →
  (∀ article, article ∈ select_cards w html → candidate_of article = None) →
  run_scraper w = (false, [Get WAM_FUEL_PRICES_URL]) ∧ exit_status w = 1.
Proof.
  intros Hget Hall%latest_article_None.
  assert (run_scraper w = (false, [Get WAM_FUEL_PRICES_URL])) as Hrun.
  { unfold run_scraper, scrape_wam_for_fuel_prices, scrape_body.
    rewrite Hget. destruct (is_nil (select_cards w html)); [done|].
    by rewrite Hall. }
  split; [done|]. unfold exit_status. by rewrite Hrun.
Qed.

Lemma no_announcement_ends_run_witness :
  let w := world_of (Response 200 (py "<html>")) Failed [unrelated_card] None 200 in
  run_scraper w = (false, [Get WAM_FUEL_PRICES_URL]) ∧ exit_status w = 1.
Proof.
  apply (no_announcement_ends_run _ (py "<html>")); [reflexivity|].
  intros article Hin. apply list_elem_of_singleton in Hin as ->. reflexivity.
Defined.

(** X16.  When the selected card's [a] has no [href], the run makes no request
    for an article and fails: the [AttributeError] is swallowed. *)
Theorem missing_href_ends_run w html latest :
  raise_for_status (http_get w WAM_FUEL_PRICES_URL) = Ok html →
  latest_article (select_cards w html) = Some latest →
  link latest = None →
  run_scraper w = (false, [Get WAM_FUEL_PRICES_URL]) ∧ exit_status w = 1.
Proof.
  intros Hget Hl Hlink.
  assert (run_scraper w = (false, [Get WAM_FUEL_PRICES_URL])) as Hrun.
  { unfold run_scraper, scrape_wam_for_fuel_prices.
    rewrite (scrape_after_selection _ _ _ Hget Hl).
    unfold article_url_of. by rewrite Hlink. }
  split; [done|]. unfold exit_status. by rewrite Hrun.
Qed.

Lemma missing_href_ends_run_witness :
  let w := world_of (Response 200 (py "<html>")) (Response 200 (py "<html>"))
             [announcement_card; no_href_card] (Some [sample_article]) 200 in
  run_scraper w = (false, [Get WAM_FUEL_PRICES_URL]) ∧ exit_status w = 1.
Proof.
  apply (missing_href_ends_run _ (py "<html>")
           {| title := py "petrol prices set for august";
              date_text := py "2024-07-31"; link := None |});
    reflexivity.
Defined.

(** X17.  When the article cannot be had, because its request fails, the page has
    no [.article-body], or no price is found in its paragraphs, the run has
    made its two GET requests, makes no POST and fails. *)
Theorem article_failure_ends_run w html latest article_url :
  raise_for_status (http_get w WAM_FUEL_PRICES_URL) = Ok html →
  latest_article (select_cards w html) = Some latest →
  article_url_of latest = Ok article_url →
  match raise_for_status (http_get w article_url) with
  | Raise _ => True
  | Ok article_html =>
      match select_article_body w article_html with
      | None => True
      | Some paragraphs =>
          extract_prices (join_space paragraphs) = ∅
      end
  end →
  run_scraper w = (false, [Get WAM_FUEL_PRICES_URL; Get article_url])
  ∧ exit_status w = 1.
Proof.
  intros Hget Hl Hurl H.
  assert (run_scraper w = (false, [Get WAM_FUEL_PRICES_URL; Get article_url]))
    as Hrun.
  { unfold run_scraper, scrape_wam_for_fuel_prices.
    rewrite (scrape_after_selection _ _ _ Hget Hl), Hurl. cbv zeta.
    destruct (raise_for_status (http_get w article_url)) as [page|]; [|done].
    destruct (select_article_body w page) as [ps|]; [|done].
    unfold extract_fuel_prices. rewrite H.
    by rewrite bool_decide_eq_false_2 by (by intros ?). }
  split; [done|]. unfold exit_status. by rewrite Hrun.
Qed.

Lemma article_failure_ends_run_witness :
  let w := world_of (Response 200 (py "<html>")) (Response 200 (py "<html>"))
             [announcement_card] (Some []) 200 in
  run_scraper w
  = (false, [Get WAM_FUEL_PRICES_URL;
             Get (py "https://wam.ae/en/article/fuel-prices-july")])
  ∧ exit_status w = 1.
Proof.
  apply (article_failure_ends_run _ (py "<html>") july_candidate);
    reflexivity.
Defined.

(** X18.  When the article gives a report, the run posts exactly that report, once,
    to the endpoint, after its two GET requests, and succeeds exactly when
    [raise_for_status] accepts the answer. *)
Theorem report_is_posted_once w html latest article_url article_html paragraphs r :
  raise_for_status (http_get w WAM_FUEL_PRICES_URL) = Ok html →
  latest_article (select_cards w html) = Some latest →
  article_url_of latest = Ok article_url →
  raise_for_status (http_get w article_url) = Ok article_html →
  select_article_body w article_html = Some paragraphs →
  extract_fuel_prices (utcnow w) (join_space paragraphs) = Some r →
  run_scraper w =
    (match raise_for_status (http_post w (TRIPXL_API_URL w) r) with
     | Ok _ => true
     | Raise _ => false
     end,
     [Get WAM_FUEL_PRICES_URL; Get article_url; Post (TRIPXL_API_URL w) r]).
Proof.
  intros Hget Hl Hurl Hget2 Hbody Hr.
  unfold run_scraper, scrape_wam_for_fuel_prices.
  rewrite (scrape_after_selection _ _ _ Hget Hl), Hurl. cbv zeta.
  rewrite Hget2, Hbody, Hr. unfold send_prices_to_tripxl.
  by destruct (raise_for_status (http_post w (TRIPXL_API_URL w) r)).
Qed.

Lemma report_is_posted_once_witness :
  run_scraper (sample_world 201)
  = (true, [Get WAM_FUEL_PRICES_URL;
            Get (py "https://wam.ae/en/article/fuel-prices-july");
            Post (TRIPXL_API_URL (sample_world 201)) sample_report]).
Proof.
  apply (report_is_posted_once (sample_world 201) (py "<listing>")
           july_candidate _ (py "<article>") [sample_article]).
  - reflexivity.
  - reflexivity.
  - reflexivity.
  - reflexivity.
  - reflexivity.
  - vm_compute. reflexivity.
Defined.

(** X19.  A run makes the request for the listing, then at most one request for an
    article, then at most one POST, of the report it extracted; a run that
    succeeds has made all three. *)
Theorem request_budget w :
  ((run_scraper w).2 = [Get WAM_FUEL_PRICES_URL]
   ∨ (∃ article_url,
        (run_scraper w).2 = [Get WAM_FUEL_PRICES_URL; Get article_url])
   ∨ (∃ article_url r,
        (scrape_wam_for_fuel_prices w).1 = Some r
        ∧ (run_scraper w).2
          = [Get WAM_FUEL_PRICES_URL; Get article_url;
             Post (TRIPXL_API_URL w) r]))
  ∧ ((run_scraper w).1 = true →
     ∃ article_url r,
       (run_scraper w).2
       = [Get WAM_FUEL_PRICES_URL; Get article_url; Post (TRIPXL_API_URL w) r]).
Proof.
  unfold run_scraper, scrape_wam_for_fuel_prices, scrape_body.
  destruct (raise_for_status (http_get w WAM_FUEL_PRICES_URL)) as [html|];
    [|split; [by left | done]].
  destruct (is_nil (select_cards w html)); [split; [by left | done]|].
  destruct (latest_article (select_cards w html)) as [latest|];
    [|split; [by left | done]].
  destruct (article_url_of latest) as [url|]; [|split; [by left | done]].
  destruct (raise_for_status (http_get w url)) as [page|];
    [|split; [right; left; by exists url | done]].
  destruct (select_article_body w page) as [ps|];
    [|split; [right; left; by exists url | done]].
  destruct (extract_fuel_prices (utcnow w) (join_space ps)) as [r|];
    [|split; [right; left; by exists url | done]].
  simpl. destruct (raise_for_status (http_post w (TRIPXL_API_URL w) r)); simpl.
  - split; [right; right|intros _]; by exists url, r.
  - split; [right; right; by exists url, r | done].
Qed.

(** ** What a run may post *)

Lemma extract_prices_positive text code v :
  extract_prices text !! code = Some v → (0 < v)%Q.
Proof.
  intros Hv. destruct (mapping_elem code) as [key Hin].
  { apply (extract_prices_dom text). by rewrite Hv. }
  rewrite (extract_prices_lookup _ _ _ Hin) in Hv.
  by apply recorded_positive in Hv.
Qed.

(** X20.  Whatever the site and the endpoint answer, a POST of a run goes to the
    endpoint and carries a report with the time of the run, the fixed source
    and a price map that is not empty, has only the four codes as keys and
    only positive prices. *)
Theorem posted_report_well_formed w url r :
  Post url r ∈ (run_scraper w).2 →
  url = TRIPXL_API_URL w
  ∧ date r = utcnow w
  ∧ source r = py "WAM (Emirates News Agency)"
  ∧ prices r ≠ ∅
  ∧ dom (prices r) ⊆ FUEL_CODES
  ∧ ∀ code v, prices r !! code = Some v → (0 < v)%Q.
Proof.
  unfold run_scraper, scrape_wam_for_fuel_prices, scrape_body.
  assert (∀ l, forallb is_get l = true → Post url r ∈ l → False) as Hno.
  { induction l as [|e l IH]; [by intros _ ?%elem_of_nil|]. simpl.
    intros [He Hl]%andb_prop [<-|Hin]%elem_of_cons; [done | by apply IH]. }
  destruct (raise_for_status (http_get w WAM_FUEL_PRICES_URL)) as [html|];
    [|by intros []%Hno].
  destruct (is_nil (select_cards w html)); [by intros []%Hno|].
  destruct (latest_article (select_cards w html)) as [latest|];
    [|by intros []%Hno].
  destruct (article_url_of latest) as [article_url|]; [|by intros []%Hno].
  destruct (raise_for_status (http_get w article_url)) as [page|];
    [|by intros []%Hno].
  destruct (select_article_body w page) as [ps|]; [|by intros []%Hno].
  destruct (extract_fuel_prices (utcnow w) (join_space ps)) as [r'|] eqn:Hr;
    [|by intros []%Hno].
  simpl.
  assert (Post url r ∈ [Get WAM_FUEL_PRICES_URL; Get article_url;
                        Post (TRIPXL_API_URL w) r'] →
          url = TRIPXL_API_URL w ∧ r = r') as Hpost.
  { intros Hin.
    apply elem_of_cons in Hin as [Hin|Hin]; [discriminate Hin|].
    apply elem_of_cons in Hin as [Hin|Hin]; [discriminate Hin|].
    apply list_elem_of_singleton in Hin. by injection Hin as -> ->. }
  intros Hin.
  assert (url = TRIPXL_API_URL w ∧ r = r') as [-> ->].
  { apply Hpost.
    by destruct (raise_for_status (http_post w (TRIPXL_API_URL w) r')). }
  apply extract_fuel_prices_Some in Hr as [Hne ->]. simpl.
  repeat split; try done.
  - apply extract_prices_codes.
  - intros code v. apply extract_prices_positive.
Qed.

Lemma posted_report_well_formed_witness :
  TRIPXL_API_URL (sample_world 500) = TRIPXL_API_URL (sample_world 500)
  ∧ date sample_report = utcnow (sample_world 500)
  ∧ source sample_report = py "WAM (Emirates News Agency)"
  ∧ prices sample_report ≠ ∅
  ∧ dom (prices sample_report) ⊆ FUEL_CODES
  ∧ ∀ code v, prices sample_report !! code = Some v → (0 < v)%Q.
Proof.
  apply (posted_report_well_formed (sample_world 500)).
  assert ((run_scraper (sample_world 500)).2
          = [Get WAM_FUEL_PRICES_URL;
             Get (py "https://wam.ae/en/article/fuel-prices-july");
             Post (TRIPXL_API_URL (sample_world 500)) sample_report]) as ->
    by (vm_compute; reflexivity).
  do 2 apply list_elem_of_further. apply list_elem_of_here.
Defined.
